(** * PowerOcean response normalisation: the [Ecoflow] class of [ecoflow.py]

    A shallow embedding of the two revisions of the normalisation engine,

    - [src/ecoflow.py] (module [Root] below), and
    - [src/custom_components/powerocean/ecoflow.py] (module [Component]),

    which share the unit and description lookups, the root extractor, the
    battery-pack extractor and the heartbeat extractor, and differ in the
    topology resolver, in [_get_sensors] and in the allow-list of the
    change-report extractor.

    Modelling conventions.
    - A parsed JSON document is a [json] tree.  A Python [dict] coming out of
      the parser keeps its insertion order, so an object is an association
      list; the parser never produces the same key twice, which theorems
      state as [NoDup] of the keys where it matters.
    - A Python [str] is a [string], one [ascii] per character.
    - A JSON number is a Python [int] or a Python [float].  An [int] is an
      integer of any size and is added exactly; a [float] is a binary64
      number and is added and divided as IEEE 754 does, to nearest with ties
      to even.  Where the two meet, the [int] is converted to the nearest
      [float] first, and [int / int] is the [float] nearest to the exact
      quotient; a result beyond the range of [float] is an
      [OverflowError].  [sum] adds its items from left to right, starting
      from the [int] 0.  This is the arithmetic of CPython 3.11; from 3.12
      on [sum] compensates the rounding of [float] items, which can move
      the last bits of a sum of floats, while a sum of [int]s is exact in
      every version.
    - An exception is a value of [exn]; a computation that may raise has
      type [py A].  Logging is not modelled, but the lookups that the
      logging statements evaluate are, since they can raise.
    - The sensor map (a [dict] keyed by [internal_unique_id]) is a
      [gmap string PowerOceanEndPoint]; [data[k] = r] is [<[k:=r]> data] and
      [dict.update(sensors, data)] is [data ∪ sensors].
    - The attributes that [_get_serial_numbers] stores on the instance
      ([master_sn], [master_data], ...) are fields of the record [Ecoflow];
      [__init__] does not create them, so they start out absent.
    - The quotes nested in the f-strings of [src/ecoflow.py] parse from
      Python 3.12 on; these f-strings are arguments of logging calls. *)

From Stdlib Require Import String Ascii List ZArith Lia DecimalString Floats.
From stdpp Require Import gmap strings list fin_maps.

Set Warnings "-register-all,-clear-no-such-hyp,-inexact-float".

(** ** Python strings *)

Module Str.

(** [s.startswith(p)] *)
Definition startswith (s p : string) : bool := String.prefix p s.

(** [s.endswith(p)] *)
Definition endswith (s p : string) : bool :=
  String.prefix (String.rev p) (String.rev s).

(** [s.endswith((p1, ..., pn))] *)
Definition endswith_any (s : string) (ps : list string) : bool :=
  existsb (endswith s) ps.

(** [p in s] *)
Fixpoint contains (p s : string) : bool :=
  String.prefix p s ||
  match s with
  | EmptyString => false
  | String _ s' => contains p s'
  end.

(** Decimal rendering of a non-negative integer: ["%i" % n], [f"{n}"]. *)
Definition of_nat (n : nat) : string :=
  NilEmpty.string_of_uint (Nat.to_uint n).

(** The line feed, the one character that [.] of a regular expression
    does not match. *)
Definition newline : ascii := "010"%char.

(** [body] is what follows the literal prefix [mppt]: does [.*Code] match
    a prefix of it?  Some run of characters other than the line feed,
    then [Code]; what follows is not looked at. *)
Fixpoint dotstar_Code (body : string) : bool :=
  String.prefix "Code" body ||
  match body with
  | EmptyString => false
  | String c body' =>
      if Ascii.eqb c newline then false else dotstar_Code body'
  end.

(** [re.compile("mppt.*Code").match(key)] is not [None]: [match] anchors
    the pattern at the start of [key] and nowhere else. *)
Definition match_mppt_Code (key : string) : bool :=
  match key with
  | String "m" (String "p" (String "p" (String "t" body))) =>
      dotstar_Code body
  | _ => false
  end.

End Str.

(** ** Python numbers *)

Inductive num : Type :=
| Int (z : Z)
| Float (f : float).

(** An integer literal stands for the [int]. *)
Coercion Int : Z >-> num.

(** ** Parsed JSON values *)

Inductive json : Type :=
| JNull
| JBool (b : bool)
| JNum (n : num)
| JStr (s : string)
| JArr (xs : list json)
| JObj (kvs : list (string * json)).
Arguments JNum n%_Z.

(** ** Exceptions *)

Inductive exn : Type :=
| KeyError (k : string)
| IndexError
| TypeError
| AttributeError
| StopIteration
| UnboundLocalError
| ZeroDivisionError
| OverflowError
| JSONDecodeError.

Inductive py (A : Type) : Type :=
| Ok (a : A)
| Raise (e : exn).
Arguments Ok {A} a.
Arguments Raise {A} e.

#[global] Instance py_ret : MRet py := λ A a, Ok a.
#[global] Instance py_bind : MBind py := λ A B f m,
  match m with
  | Ok a => f a
  | Raise e => Raise e
  end.

Definition raises {A} (m : py A) : Prop := ∃ e, m = Raise e.

(** A [for] loop whose body may raise: the first exception ends the loop. *)
Fixpoint for_each {A B} (body : A → B → py A) (acc : A) (l : list B) : py A :=
  match l with
  | [] => Ok acc
  | x :: l' => acc' ← body acc x; for_each body acc' l'
  end.

(** ** Operations on parsed values *)

Module Py.

(** Lookup in a [dict]: the first (and, in a parsed document, only)
    binding of the key. *)
Fixpoint assoc {V} (k : string) (kvs : list (string * V)) : option V :=
  match kvs with
  | [] => None
  | (k', v) :: kvs' => if String.eqb k k' then Some v else assoc k kvs'
  end.

(** [v[k]] for a string [k]. *)
Definition getitem (v : json) (k : string) : py json :=
  match v with
  | JObj kvs =>
      match assoc k kvs with
      | Some x => Ok x
      | None => Raise (KeyError k)
      end
  | _ => Raise TypeError
  end.

(** [v[i]] for an integer [i >= 0].  The keys of a parsed object are
    strings, so an integer is never one of them. *)
Definition getindex (v : json) (i : nat) : py json :=
  match v with
  | JArr xs =>
      match xs !! i with
      | Some x => Ok x
      | None => Raise IndexError
      end
  | JStr s =>
      match String.get i s with
      | Some c => Ok (JStr (String c EmptyString))
      | None => Raise IndexError
      end
  | JObj _ => Raise (KeyError (Str.of_nat i))
  | _ => Raise TypeError
  end.

(** [v.items()] *)
Definition items (v : json) : py (list (string * json)) :=
  match v with
  | JObj kvs => Ok kvs
  | _ => Raise AttributeError
  end.

(** [v.keys()] *)
Definition keys (v : json) : py (list string) :=
  match v with
  | JObj kvs => Ok kvs.*1
  | _ => Raise AttributeError
  end.

(** [len(v)] *)
Definition len (v : json) : py nat :=
  match v with
  | JArr xs => Ok (length xs)
  | JObj kvs => Ok (length kvs)
  | JStr s => Ok (String.length s)
  | _ => Raise TypeError
  end.

(** [isinstance(v, dict)] *)
Definition is_dict (v : json) : bool :=
  match v with
  | JObj _ => true
  | _ => false
  end.

(** The operand of an addition as a number; [bool] is a subclass of
    [int] in Python. *)
Definition number (v : json) : py num :=
  match v with
  | JNum n => Ok n
  | JBool b => Ok (Int (if b then 1 else 0))
  | _ => Raise TypeError
  end.

(** [float(z)]: the binary64 number nearest to [z], ties to even; an
    [int] that rounds beyond the largest [float] cannot be converted. *)
Definition to_float (z : Z) : py float :=
  let f := SF2Prim (binary_normalize prec emax z 0 false) in
  if PrimFloat.is_infinity f then Raise OverflowError else Ok f.

(** The operand of a [float] operation. *)
Definition as_float (n : num) : py float :=
  match n with
  | Int z => to_float z
  | Float f => Ok f
  end.

(** [a + b] for two numbers: exact on two [int]s, in binary64 once a
    [float] takes part. *)
Definition plus (a b : num) : py num :=
  match a, b with
  | Int x, Int y => Ok (Int (x + y))
  | _, _ => x ← as_float a; y ← as_float b; Ok (Float (x + y))
  end.

(** [acc + v] for a numeric accumulator. *)
Definition add (acc : num) (v : json) : py num :=
  n ← number v; plus acc n.

(** [sum(v)]: starts from [0] and adds the elements of the iterable;
    iterating a [dict] or a [str] yields strings. *)
Definition sum (v : json) : py num :=
  match v with
  | JArr xs => for_each add (Int 0) xs
  | JObj kvs => for_each add (Int 0) (JStr <$> kvs.*1)
  | JStr s => if decide (s = EmptyString) then Ok (Int 0) else Raise TypeError
  | _ => Raise TypeError
  end.

(** [a / b] for two [int]s, [b] positive: the binary64 number nearest
    to the exact quotient, ties to even. *)
Definition true_div (a : Z) (b : positive) : py float :=
  match a with
  | Z0 => Ok PrimFloat.zero
  | _ =>
      let f :=
        SF2Prim (SFdiv prec emax
                   (S754_finite (a <? 0)%Z (Z.to_pos (Z.abs a)) 0)
                   (S754_finite false b 0)) in
      if PrimFloat.is_infinity f then Raise OverflowError else Ok f
  end.

(** [a / n] for a length [n]. *)
Definition div (a : num) (n : nat) : py float :=
  match n with
  | O => Raise ZeroDivisionError
  | S _ =>
      match a with
      | Int z => true_div z (Pos.of_nat n)
      | Float f => d ← to_float (Z.of_nat n); Ok (PrimFloat.div f d)
      end
  end.

(** [next(iter(keys))] *)
Definition first (ks : list string) : py string :=
  match ks with
  | [] => Raise StopIteration
  | k :: _ => Ok k
  end.

(** [next(reversed(keys))] *)
Definition last (ks : list string) : py string :=
  match List.last (Some <$> ks) None with
  | Some k => Ok k
  | None => Raise StopIteration
  end.

(** Reading an attribute that may not have been set on the instance, or
    a local variable that may not have been bound. *)
Definition attr {A} (a : option A) : py A :=
  match a with
  | Some x => Ok x
  | None => Raise AttributeError
  end.

Definition local {A} (a : option A) : py A :=
  match a with
  | Some x => Ok x
  | None => Raise UnboundLocalError
  end.

End Py.

(** ** The measurement record *)

Module EndPoint.
Record t : Type := mk {
  internal_unique_id : string;
  serial : string;
  name : string;
  friendly_name : string;
  value : json;
  unit : option string;
  description : string;
  icon : option string
}.
End EndPoint.
Abbreviation PowerOceanEndPoint := EndPoint.t.

(** The sensor map. *)
Abbreviation sensors_t := (gmap string PowerOceanEndPoint).

(** ** The instance *)

Record Ecoflow : Type := {
  sn : string;
  first_sn : option string;
  second_sn : option string;
  master_sn : option string;
  slave_sn : option string;
  master_data : option json;
  slave_data : option json
}.

(** The instance as [__init__] leaves it. *)
Definition init (serialnumber : string) : Ecoflow :=
  {| sn := serialnumber;
     first_sn := None; second_sn := None;
     master_sn := None; slave_sn := None;
     master_data := None; slave_data := None |}.

Definition set_first_sn (x : string) (self : Ecoflow) : Ecoflow :=
  {| sn := sn self; first_sn := Some x; second_sn := second_sn self;
     master_sn := master_sn self; slave_sn := slave_sn self;
     master_data := master_data self; slave_data := slave_data self |}.
Definition set_second_sn (x : string) (self : Ecoflow) : Ecoflow :=
  {| sn := sn self; first_sn := first_sn self; second_sn := Some x;
     master_sn := master_sn self; slave_sn := slave_sn self;
     master_data := master_data self; slave_data := slave_data self |}.
Definition set_master_sn (x : string) (self : Ecoflow) : Ecoflow :=
  {| sn := sn self; first_sn := first_sn self; second_sn := second_sn self;
     master_sn := Some x; slave_sn := slave_sn self;
     master_data := master_data self; slave_data := slave_data self |}.
Definition set_slave_sn (x : string) (self : Ecoflow) : Ecoflow :=
  {| sn := sn self; first_sn := first_sn self; second_sn := second_sn self;
     master_sn := master_sn self; slave_sn := Some x;
     master_data := master_data self; slave_data := slave_data self |}.
Definition set_master_data (x : json) (self : Ecoflow) : Ecoflow :=
  {| sn := sn self; first_sn := first_sn self; second_sn := second_sn self;
     master_sn := master_sn self; slave_sn := slave_sn self;
     master_data := Some x; slave_data := slave_data self |}.
Definition set_slave_data (x : json) (self : Ecoflow) : Ecoflow :=
  {| sn := sn self; first_sn := first_sn self; second_sn := second_sn self;
     master_sn := master_sn self; slave_sn := slave_sn self;
     master_data := master_data self; slave_data := Some x |}.

(** A method that may raise and may assign attributes of [self]; the
    assignments made before an exception stay. *)
Definition method (A : Type) : Type := Ecoflow → py A * Ecoflow.

Definition mreturn {A} (a : A) : method A := λ self, (Ok a, self).
Definition mthen {A B} (m : method A) (k : A → method B) : method B :=
  λ self,
    match m self with
    | (Ok a, self') => k a self'
    | (Raise e, self') => (Raise e, self')
    end.
Definition lift {A} (m : py A) : method A := λ self, (m, self).
Definition assign (f : Ecoflow → Ecoflow) : method () := λ self, (Ok (), f self).
Definition read {A} (f : Ecoflow → A) : method A := λ self, (Ok (f self), self).
Definition read_attr {A} (f : Ecoflow → option A) : method A :=
  λ self, (Py.attr (f self), self).

Declare Scope method_scope.
Delimit Scope method_scope with method.
Notation "x <- m ;; k" := (mthen m (λ x, k))
  (at level 100, m at next level, right associativity) : method_scope.
Notation "m ;; k" := (mthen m (λ _, k))
  (at level 100, right associativity) : method_scope.

(** ** Unit and description lookups *)

(** The degree sign followed by [C]. *)
Definition degC : string := String "176"%char (String "C" EmptyString).

Definition __get_unit (key : string) : option string :=
  if Str.endswith_any key ["pwr"; "Pwr"; "Power"] then Some "W"
  else if Str.endswith_any key ["amp"; "Amp"] then Some "A"
  else if Str.endswith_any key ["soc"; "Soc"; "soh"; "Soh"] then Some "%"
  else if Str.endswith_any key ["vol"; "Vol"] then Some "V"
  else if Str.endswith_any key ["Watth"; "Energy"] then Some "Wh"
  else if Str.contains "Generation" key then Some "kWh"
  else if Str.startswith key "bpTemp" then Some degC
  else None.

Definition __get_description (key : string) : string :=
  let description := key in
  let description := if String.eqb key "sysLoadPwr" then "Hausnetz" else description in
  let description := if String.eqb key "sysGridPwr" then "Stromnetz" else description in
  let description := if String.eqb key "mpptPwr" then "Solarertrag" else description in
  let description := if String.eqb key "bpPwr" then "Batterieleistung" else description in
  let description := if String.eqb key "bpSoc" then "Ladezustand der Batterie" else description in
  let description := if String.eqb key "online" then "Online" else description in
  let description := if String.eqb key "systemName" then "System Name" else description in
  let description := if String.eqb key "createTime" then "Installations Datum" else description in
  let description := if String.eqb key "bpVol" then "Batteriespannung" else description in
  let description := if String.eqb key "bpAmp" then "Batteriestrom" else description in
  let description := if String.eqb key "bpCycles" then "Ladezyklen" else description in
  let description := if String.eqb key "bpTemp" then "Temperatur der Batteriezellen" else description in
  description.

(** [enumerate(l)] *)
Definition enumerate {A} (l : list A) : list (nat * A) :=
  zip (seq 0 (length l)) l.

(** ** The extractors shared by the two revisions *)

Section Extractors.

(** [homeassistant.util.json.json_loads], the decoder of the embedded
    battery-pack documents, is not part of this repository: it takes the
    value found under the pack key and returns the decoded document or
    raises. *)
Variable json_loads : json → py json.

(** *** Root extractor *)

Definition __get_sensors_data (self : Ecoflow) (response : json) : py sensors_t :=
  data ← Py.getitem response "data";
  (* [.copy()], then [.items()] *)
  its ← Py.items data;
  let sens_select :=
    ["sysLoadPwr"; "sysGridPwr"; "mpptPwr"; "bpPwr"; "online";
     "todayElectricityGeneration"; "monthElectricityGeneration";
     "yearElectricityGeneration"; "totalElectricityGeneration";
     "systemName"; "createTime"] in
  Ok (foldl (λ (sensors : sensors_t) '(key, value),
        if bool_decide (key ∈ sens_select) then
          if negb (Py.is_dict value) then
            let unique_id := sn self +:+ "_" +:+ key in
            let special_icon :=
              if String.eqb key "mpptPwr" then Some "mdi:solar-power" else None in
            <[unique_id :=
               {| EndPoint.internal_unique_id := unique_id;
                  EndPoint.serial := sn self;
                  EndPoint.name := sn self +:+ "_" +:+ key;
                  EndPoint.friendly_name := key;
                  EndPoint.value := value;
                  EndPoint.unit := __get_unit key;
                  EndPoint.description := __get_description key;
                  EndPoint.icon := special_icon |}]> sensors
          else sensors
        else sensors) ∅ its).

(** *** Change-report extractor

    The two revisions differ in the literal list [sens_select] only, which
    is the first argument here. *)

Definition ems_change (sens_select : list string)
    (inverter_dataset : json) (sensors : sensors_t)
    (inverter_sn inverter_string : string) : py sensors_t :=
  let report := "JTS1_EMS_CHANGE_REPORT" in
  d ← Py.getitem inverter_dataset report;
  keys ← Py.keys d;
  let wfc := filter (λ k, Str.match_mppt_Code k = true) keys in
  let sens_select := sens_select ++ wfc in
  its ← Py.items d;
  let data :=
    foldl (λ (data : sensors_t) '(key, value),
        if bool_decide (key ∈ sens_select) then
          let unique_id := inverter_sn +:+ "_" +:+ report +:+ "_" +:+ key in
          <[unique_id :=
             {| EndPoint.internal_unique_id := unique_id;
                EndPoint.serial := inverter_sn;
                EndPoint.name := inverter_sn +:+ "_" +:+ key;
                EndPoint.friendly_name := key +:+ inverter_string;
                EndPoint.value := value;
                EndPoint.unit := __get_unit key;
                EndPoint.description := __get_description key;
                EndPoint.icon := None |}]> data
        else data) ∅ its in
  Ok (data ∪ sensors).

(** *** Battery-pack extractor *)

Definition bat_sens_select : list string :=
  ["bpPwr"; "bpSoc"; "bpSoh"; "bpVol"; "bpAmp"; "bpCycles"; "bpSysState";
   "bpRemainWatth"].

(** [sum(temp) / len(temp)] *)
Definition mean (temp : json) : py float :=
  s ← Py.sum temp;
  n ← Py.len temp;
  Py.div s n.

(** The body of [for ibat, bat in enumerate(batts)]; [d] is the
    [JTS1_BP_STA_REPORT] sub-tree. *)
Definition battery_pack (d : json) (inverter_sn inverter_string : string)
    (data : sensors_t) (ibat : nat) (bat : string) : py sensors_t :=
  let report := "JTS1_BP_STA_REPORT" in
  let prefix := "bpack" in
  let name := prefix +:+ Str.of_nat (ibat + 1) +:+ "_" in
  raw ← Py.getitem d bat;
  d_bat ← json_loads raw;
  its ← Py.items d_bat;
  let data :=
    foldl (λ (data : sensors_t) '(key, value),
        if bool_decide (key ∈ bat_sens_select) then
          let unique_id :=
            inverter_sn +:+ "_" +:+ report +:+ "_" +:+ bat +:+ "_" +:+ key in
          let description_tmp := name +:+ __get_description key in
          let special_icon :=
            if String.eqb key "bpAmp" then Some "mdi:current-dc" else None in
          <[unique_id :=
             {| EndPoint.internal_unique_id := unique_id;
                EndPoint.serial := inverter_sn;
                EndPoint.name := inverter_sn +:+ "_" +:+ (name +:+ key);
                EndPoint.friendly_name := name +:+ key +:+ inverter_string;
                EndPoint.value := value;
                EndPoint.unit := __get_unit key;
                EndPoint.description := description_tmp;
                EndPoint.icon := special_icon |}]> data
        else data) data its in
  let key := "bpTemp" in
  temp ← Py.getitem d_bat key;
  value ← mean temp;
  let unique_id :=
    inverter_sn +:+ "_" +:+ report +:+ "_" +:+ bat +:+ "_" +:+ key in
  let description_tmp := name +:+ __get_description key in
  Ok (<[unique_id :=
         {| EndPoint.internal_unique_id := unique_id;
            EndPoint.serial := inverter_sn;
            EndPoint.name := inverter_sn +:+ "_" +:+ (name +:+ key);
            EndPoint.friendly_name := name +:+ key +:+ inverter_string;
            EndPoint.value := JNum (Float value);
            EndPoint.unit := __get_unit key;
            EndPoint.description := description_tmp;
            EndPoint.icon := None |}]> data).

Definition __get_sensors_battery (inverter_data : json) (sensors : sensors_t)
    (inverter_sn inverter_string : string) : py sensors_t :=
  let report := "JTS1_BP_STA_REPORT" in
  d ← Py.getitem inverter_data report;
  keys ← Py.keys d;
  let batts := filter (λ s, 12 < String.length s) keys in
  data ← for_each (λ data '(ibat, bat),
            battery_pack d inverter_sn inverter_string data ibat bat)
          ∅ (enumerate batts);
  Ok (data ∪ sensors).

(** *** Heartbeat extractor

    The loop variable [key] outlives the loops: the total-power record
    takes its unit from whatever [key] was bound last.  The loops
    therefore carry [key] next to [data]. *)

(** The body of [for key, value in ...[i].items()], the loop over the
    fields of one PV string. *)
Definition heartbeat_field (self : Ecoflow)
    (inverter_sn inverter_string mpptpv : string)
    (st : sensors_t * option string * num) (field : string * json)
    : py (sensors_t * option string * num) :=
  let report := "JTS1_EMS_HEARTBEAT" in
  let '(data, _, mpptPv_sum) := st in
  let '(key, value) := field in
  let unique_id :=
    inverter_sn +:+ "_" +:+ report +:+ "_mpptHeartBeat_" +:+ mpptpv
      +:+ "_" +:+ key in
  let special_icon := None in
  let special_icon :=
    if Str.endswith key "amp" then Some "mdi:current-dc" else special_icon in
  let special_icon :=
    if Str.endswith key "pwr" then Some "mdi:solar-power" else special_icon in
  let data : sensors_t :=
    <[unique_id :=
       {| EndPoint.internal_unique_id := unique_id;
          EndPoint.serial := sn self;
          EndPoint.name := inverter_sn +:+ "_" +:+ mpptpv +:+ "_" +:+ key;
          EndPoint.friendly_name := mpptpv +:+ "_" +:+ key +:+ inverter_string;
          EndPoint.value := value;
          EndPoint.unit := __get_unit key;
          EndPoint.description := __get_description key;
          EndPoint.icon := special_icon |}]> data in
  (* sum power of all strings *)
  mpptPv_sum ←
    (if String.eqb key "pwr" then Py.add mpptPv_sum value else Ok mpptPv_sum);
  Ok (data, Some key, mpptPv_sum).

(** [d["mpptHeartBeat"][0]["mpptPv"]] *)
Definition mpptPv (d : json) : py json :=
  hb ← Py.getitem d "mpptHeartBeat";
  hb0 ← Py.getindex hb 0;
  Py.getitem hb0 "mpptPv".

(** The body of [for i, mpptpv in enumerate(mpptpvs)]; [d] is the
    [JTS1_EMS_HEARTBEAT] sub-tree. *)
Definition heartbeat_string (self : Ecoflow) (d : json)
    (inverter_sn inverter_string : string)
    (st : sensors_t * option string * num) (pv_string : nat * string)
    : py (sensors_t * option string * num) :=
  let '(i, mpptpv) := pv_string in
  pv ← mpptPv d;
  string_i ← Py.getindex pv i;
  its ← Py.items string_i;
  for_each (heartbeat_field self inverter_sn inverter_string mpptpv) st its.

Definition __get_sensors_ems_heartbeat (self : Ecoflow)
    (inverter_data : json) (sensors : sensors_t)
    (inverter_sn inverter_string : string) : py sensors_t :=
  let report := "JTS1_EMS_HEARTBEAT" in
  d ← Py.getitem inverter_data report;
  let sens_select :=
    ["bpRemainWatth"; "emsBpAliveNum"; "emsBpPower"; "pcsActPwr";
     "pcsMeterPower"] in
  its ← Py.items d;
  let st : sensors_t * option string :=
    foldl (λ '(data, _) '(key, value),
        (if bool_decide (key ∈ sens_select) then
           let unique_id := inverter_sn +:+ "_" +:+ report +:+ "_" +:+ key in
           let description_tmp := __get_description key in
           <[unique_id :=
              {| EndPoint.internal_unique_id := unique_id;
                 EndPoint.serial := inverter_sn;
                 EndPoint.name := inverter_sn +:+ "_" +:+ key;
                 EndPoint.friendly_name := key +:+ inverter_string;
                 EndPoint.value := value;
                 EndPoint.unit := __get_unit key;
                 EndPoint.description := description_tmp;
                 EndPoint.icon := None |}]> data
         else data, Some key)) (∅, None) its in
  (* special for phases *)
  let phases := ["pcsAPhase"; "pcsBPhase"; "pcsCPhase"] in
  st ← for_each (λ (st : sensors_t * option string) phase,
          d_phase ← Py.getitem d phase;
          its ← Py.items d_phase;
          Ok (foldl (λ '(data, _) '(key, value),
                let name := phase +:+ "_" +:+ key in
                let unique_id := inverter_sn +:+ "_" +:+ report +:+ "_" +:+ name in
                (<[unique_id :=
                    {| EndPoint.internal_unique_id := unique_id;
                       EndPoint.serial := inverter_sn;
                       EndPoint.name := inverter_sn +:+ "_" +:+ name;
                       EndPoint.friendly_name := name +:+ inverter_string;
                       EndPoint.value := value;
                       EndPoint.unit := __get_unit key;
                       EndPoint.description := __get_description key;
                       EndPoint.icon := None |}]> data, Some key)) st its))
        st phases;
  (* special for mpptPv *)
  pv ← mpptPv d;
  n_strings ← Py.len pv;
  let mpptpvs := (λ i, "mpptPv" +:+ Str.of_nat i) <$> seq 1 n_strings in
  let mpptPv_sum := Float PrimFloat.zero in
  '(data, key, mpptPv_sum) ←
    for_each (heartbeat_string self d inverter_sn inverter_string)
      (st, mpptPv_sum) (enumerate mpptpvs);
  (* create total power sensor of all strings *)
  let name := "mpptPv_pwrTotal" in
  let unique_id := inverter_sn +:+ "_" +:+ report +:+ "_mpptHeartBeat_" +:+ name in
  key ← Py.local key;
  let data : sensors_t :=
    <[unique_id :=
       {| EndPoint.internal_unique_id := unique_id;
          EndPoint.serial := inverter_sn;
          EndPoint.name := inverter_sn +:+ "_" +:+ name;
          EndPoint.friendly_name := name +:+ inverter_string;
          EndPoint.value := JNum mpptPv_sum;
          EndPoint.unit := __get_unit key;
          EndPoint.description := "Solarertrag aller Strings";
          EndPoint.icon := Some "mdi:solar-power" |}]> data in
  Ok (data ∪ sensors).

End Extractors.

(** ** [src/ecoflow.py] *)

Module Root.
Section Root.

Variable json_loads : json → py json.

Definition __get_sensors_ems_change :=
  ems_change
    ["bpTotalChgEnergy"; "bpTotalDsgEnergy"; "bpSoc"; "bpOnlineSum";
     "emsCtrlLedBright"; "emsWordMode"].

(** Lines 561 to 701 assign nothing on the instance; what they evaluate
    for the log can raise.  The reference to the undefined [device_info]
    (lines 565 to 568) and the nested walk over [response.items()]
    (lines 571 to 642) run every statement that can raise under a bare
    [except], so nothing escapes from them.  The lookups of lines 668 to
    701 are not guarded. *)
Definition logged_lookups (response : json) : py json :=
  _ ← Py.keys response;
  p_data ← Py.getitem response "data";
  _ ← Py.keys p_data;
  _ ← Py.items p_data;
  p_data ← Py.getitem response "data";
  _ ← Py.keys p_data;
  p_data_quota ← (data ← Py.getitem response "data"; Py.getitem data "quota");
  _ ← Py.keys p_data_quota;
  p_data_parallel ←
    (data ← Py.getitem response "data"; Py.getitem data "parallel");
  _ ← Py.keys p_data_parallel;
  p_data_parallel_master ←
    (data ← Py.getitem response "data";
     parallel ← Py.getitem data "parallel";
     Py.getitem parallel "J32EZEH4ZG3S0104");
  _ ← Py.keys p_data_parallel_master;
  p_data_parallel_slave ←
    (data ← Py.getitem response "data";
     parallel ← Py.getitem data "parallel";
     Py.getitem parallel "J32EZEH4ZG3S0042");
  _ ← Py.keys p_data_parallel_slave;
  Ok p_data.

(** [response["data"]["parallel"][serial]] *)
Definition segment (response : json) (serial : string) : py json :=
  data ← Py.getitem response "data";
  parallel ← Py.getitem data "parallel";
  Py.getitem parallel serial.

Definition _get_serial_numbers (response : json) : method nat :=
  (p_data <- lift (logged_lookups response);;
   keys <- lift (Py.keys p_data);;
   if bool_decide ("parallel" ∈ keys) then
     (* installation is dual inverter one *)
     p <- lift (data ← Py.getitem response "data"; Py.getitem data "parallel");;
     keys_2 <- lift (Py.keys p);;
     first <- lift (Py.first keys_2);;
     assign (set_first_sn first);;
     second <- lift (Py.last keys_2);;
     assign (set_second_sn second);;
     first_sn' <- read_attr first_sn;;
     sn' <- read sn;;
     (if String.eqb first_sn' sn' then
        (* first segment relates to master inverter *)
        x <- read_attr first_sn;; assign (set_master_sn x);;
        x <- read_attr second_sn;; assign (set_slave_sn x);;
        k <- read_attr first_sn;; x <- lift (segment response k);;
        assign (set_master_data x);;
        k <- read_attr first_sn;; x <- lift (segment response k);;
        assign (set_master_data x);;
        k <- read_attr second_sn;; x <- lift (segment response k);;
        assign (set_slave_data x)
      else
        (* first segment relates to slave inverter *)
        x <- read_attr second_sn;; assign (set_master_sn x);;
        x <- read_attr first_sn;; assign (set_slave_sn x);;
        k <- read_attr second_sn;; x <- lift (segment response k);;
        assign (set_master_data x);;
        k <- read_attr first_sn;; x <- lift (segment response k);;
        assign (set_slave_data x));;
     n <- lift (Py.len p);;
     mreturn n
   else
     (* installation is single inverter, create master segment *)
     x <- lift (data ← Py.getitem response "data"; Py.getitem data "quota");;
     assign (set_master_data x);;
     mreturn 0)%method.

(** The three per-inverter extractors, called one after the other with
    [self.<x>_data], [sensors], [self.<x>_sn] and the suffix. *)
Definition inverter (data : Ecoflow → option json) (serial : Ecoflow → option string)
    (suffix : string) (sensors : sensors_t) : method sensors_t :=
  (self <- read id;;
   d <- read_attr data;; s <- read_attr serial;;
   sensors <- lift (__get_sensors_ems_change d sensors s suffix);;
   d <- read_attr data;; s <- read_attr serial;;
   sensors <- lift (__get_sensors_battery json_loads d sensors s suffix);;
   d <- read_attr data;; s <- read_attr serial;;
   lift (__get_sensors_ems_heartbeat self d sensors s suffix))%method.

(** [None] is the value of the bare [return]. *)
Definition _get_sensors (response : json) : method (option sensors_t) :=
  (serials <- _get_serial_numbers response;;
   if bool_decide (serials = 2) then
     let master_string := "_master" in
     let slave_string := "_slave" in
     self <- read id;;
     sensors <- lift (__get_sensors_data self response);;
     sensors <- inverter master_data master_sn master_string sensors;;
     sensors <- inverter slave_data slave_sn slave_string sensors;;
     mreturn (Some sensors)
   else if bool_decide (serials = 0) then
     let master_string := "" in
     self <- read id;;
     sensors <- lift (__get_sensors_data self response);;
     sensors <- inverter master_data master_sn master_string sensors;;
     mreturn (Some sensors)
   else
     (* neither single nor dual inverter system - aborting *)
     mreturn None)%method.

End Root.
End Root.

(** ** [src/custom_components/powerocean/ecoflow.py] *)

Module Component.
Section Component.

Variable json_loads : json → py json.

Definition __get_sensors_ems_change :=
  ems_change
    ["bpTotalChgEnergy"; "bpTotalDsgEnergy"; "bpSoc"; "bpOnlineSum";
     "emsCtrlLedBright"].

(** [response["data"]["parallel"][serial]] *)
Definition segment (response : json) (serial : string) : py json :=
  data ← Py.getitem response "data";
  parallel ← Py.getitem data "parallel";
  Py.getitem parallel serial.

Definition _get_serial_numbers (response : json) : method nat :=
  (p <- lift (Py.getitem response "data");;
   keys <- lift (Py.keys p);;
   if bool_decide ("parallel" ∈ keys) then
     p <- lift (data ← Py.getitem response "data"; Py.getitem data "parallel");;
     keys_2 <- lift (Py.keys p);;
     (* the loop that logs the keys of every segment *)
     lift (for_each (λ _ key, pp ← segment response key; _ ← Py.keys pp; Ok ())
             () keys_2);;
     x <- lift (Py.first keys_2);; assign (set_slave_sn x);;
     x <- lift (Py.last keys_2);; assign (set_master_sn x);;
     k <- read_attr master_sn;; x <- lift (segment response k);;
     assign (set_master_data x);;
     k <- read_attr slave_sn;; x <- lift (segment response k);;
     assign (set_slave_data x);;
     n <- lift (Py.len p);;
     mreturn n
   else
     x <- lift (data ← Py.getitem response "data"; Py.getitem data "quota");;
     assign (set_master_data x);;
     mreturn 0)%method.

(** The suffix is a local variable that the caller may have left
    unbound; the arguments are evaluated from left to right. *)
Definition inverter (data : Ecoflow → option json) (serial : Ecoflow → option string)
    (suffix : option string) (sensors : sensors_t) : method sensors_t :=
  (self <- read id;;
   d <- read_attr data;; s <- read_attr serial;; x <- lift (Py.local suffix);;
   sensors <- lift (__get_sensors_ems_change d sensors s x);;
   d <- read_attr data;; s <- read_attr serial;; x <- lift (Py.local suffix);;
   sensors <- lift (__get_sensors_battery json_loads d sensors s x);;
   d <- read_attr data;; s <- read_attr serial;; x <- lift (Py.local suffix);;
   lift (__get_sensors_ems_heartbeat self d sensors s x))%method.

Definition _get_sensors (response : json) : method sensors_t :=
  (serials <- _get_serial_numbers response;;
   let '(master_string, slave_string) :=
     if bool_decide (serials = 2) then (Some "_master", Some "_slave")
     else if bool_decide (serials = 0) then (Some "", None)
     else (None, None) in
   self <- read id;;
   sensors <- lift (__get_sensors_data self response);;
   sensors <- inverter master_data master_sn master_string sensors;;
   if bool_decide (serials = 2) then
     sensors <- inverter slave_data slave_sn slave_string sensors;;
     mreturn sensors
   else
     mreturn sensors)%method.

End Component.
End Component.

(** ** Notions the statements below are phrased in *)

(** Every record sits under its own [internal_unique_id]. *)
Definition keyed (m : sensors_t) : Prop :=
  map_Forall (λ k r, EndPoint.internal_unique_id r = k) m.

(** [data] holds exactly one record whose identifier is [id]. *)
Definition emits_one (data : sensors_t) (id : string) : Prop :=
  is_Some (data !! id)
  ∧ ∀ k r, data !! k = Some r → EndPoint.internal_unique_id r = id → k = id.

(** The shape of every loop that fills the map: the element [x] is written
    under [uid x] when [sel x] holds, and skipped otherwise. *)
Definition emit {B} (sel : B → bool) (uid : B → string)
    (rec : B → PowerOceanEndPoint) (data : sensors_t) (x : B) : sensors_t :=
  if sel x then <[uid x := rec x]> data else data.

(** [sum(ns)] for a list of numbers: Python adds them to the [int] 0 from
    left to right. *)
Definition sum_of (ns : list num) : py num := for_each Py.plus (Int 0) ns.

(** [sum(ns) / len(ns)]: the mean as Python computes it, a [float]. *)
Definition mean_of (ns : list num) : py float :=
  s ← sum_of ns; Py.div s (length ns).

(** The running total [acc += n] of a [float] accumulator over a list of
    numbers, from left to right. *)
Definition float_sum_from (acc : float) (ns : list num) : py float :=
  for_each (λ acc n, x ← Py.as_float n; Ok (acc + x)%float) acc ns.

(** The same from [0.0]. *)
Definition float_sum (ns : list num) : py float := float_sum_from 0%float ns.

(** One of the three extractors raises on the report root [inv], whatever
    its other arguments. *)
Definition extractor_raises (json_loads : json → py json) (inv : json) : Prop :=
  (∀ sensors s x, raises (Root.__get_sensors_ems_change inv sensors s x))
  ∨ (∀ sensors s x, raises (__get_sensors_battery json_loads inv sensors s x))
  ∨ (∀ self sensors s x,
       raises (__get_sensors_ems_heartbeat self inv sensors s x)).

(** Did the run return a map? *)
Definition returns_map (run : py (option sensors_t)) : bool :=
  match run with
  | Ok (Some _) => true
  | _ => false
  end.

(** The record that a run left under [id]; none if the run raised or
    returned no map. *)
Definition emitted (run : py sensors_t) (id : string)
    : option PowerOceanEndPoint :=
  match run with
  | Ok m => m !! id
  | Raise _ => None
  end.

(** The same for a run of [_get_sensors]. *)
Definition returned (run : py (option sensors_t)) (id : string)
    : option PowerOceanEndPoint :=
  match run with
  | Ok (Some m) => m !! id
  | _ => None
  end.

(** [o] is a record stored under [id] for the inverter [serial], with
    unit [unit] and the [float] [q] as its value. *)
Definition numeric_record (id serial : string) (unit : option string)
    (q : float) (o : option PowerOceanEndPoint) : Prop :=
  ∃ r, o = Some r
    ∧ EndPoint.internal_unique_id r = id
    ∧ EndPoint.serial r = serial
    ∧ EndPoint.unit r = unit
    ∧ EndPoint.value r = JNum (Float q).

(** [s] is a PV-string object with the number [q] as its [pwr] field. *)
Definition pv_string_with_pwr (s : json) (q : num) : Prop :=
  ∃ kvs, s = JObj kvs ∧ NoDup kvs.*1 ∧ Py.assoc "pwr" kvs = Some (JNum q).

(** The value under the pack key [bat] decodes to an object whose [bpTemp]
    is the non-empty array of the numbers [temps]. *)
Definition pack_with_temperatures (json_loads : json → py json)
    (d : list (string * json)) (bat : string) (temps : list num) : Prop :=
  ∃ raw payload,
    Py.assoc bat d = Some raw
    ∧ json_loads raw = Ok (JObj payload)
    ∧ Py.assoc "bpTemp" payload = Some (JArr (JNum <$> temps))
    ∧ temps ≠ [].

(** The value under the pack key [bat] decodes to an object without
    [bpTemp]. *)
Definition pack_without_temperatures (json_loads : json → py json)
    (d : list (string * json)) (bat : string) : Prop :=
  ∃ raw payload,
    Py.assoc bat d = Some raw
    ∧ json_loads raw = Ok (JObj payload)
    ∧ Py.assoc "bpTemp" payload = None.

(** ** Sample documents *)

Module Sample.

(** The double quote. *)
Definition dq : string := String "034"%char EmptyString.

(** The text [{"bpSoc":55,"bpTemp":[20,22,24]}] of a battery pack and the
    document it decodes to. *)
Definition pack_text : string :=
  "{" +:+ dq +:+ "bpSoc" +:+ dq +:+ ":55," +:+ dq +:+ "bpTemp" +:+ dq
    +:+ ":[20,22,24]}".
Definition pack : json :=
  JObj [("bpSoc", JNum 55); ("bpTemp", JArr [JNum 20; JNum 22; JNum 24])].

(** The text [{"bpSoc":55}] of a battery pack without temperatures and
    the document it decodes to. *)
Definition bare_pack_text : string := "{" +:+ dq +:+ "bpSoc" +:+ dq +:+ ":55}".
Definition bare_pack : json := JObj [("bpSoc", JNum 55)].

(** A text that is not JSON. *)
Definition broken_text : string := "{bpSoc:".

(** The decoder on the values the samples hold: [pack_text] decodes to
    [pack] and [bare_pack_text] to [bare_pack]; [broken_text], like any
    value that is not a JSON text, makes the decoder raise. *)
Definition json_loads (v : json) : py json :=
  match v with
  | JStr s =>
      if String.eqb s pack_text then Ok pack
      else if String.eqb s bare_pack_text then Ok bare_pack
      else Raise JSONDecodeError
  | _ => Raise JSONDecodeError
  end.

Definition change_report : json :=
  JObj [("bpSoc", JNum 50); ("bpTotalChgEnergy", JNum 1200);
        ("emsWordMode", JStr "WORKMODE_SELFUSE");
        ("mppt1FaultCode", JNum 0); ("mppt1WarningCode", JNum 0);
        ("mpptCodeVersion", JNum 3); ("pcsRunSta", JStr "RUNSTA_RUN")].

Definition battery_report (packs : list (string * json)) : json :=
  JObj (("updateTime", JStr "2025-01-09 10:00:00") :: packs).

Definition one_pack : list (string * json) :=
  [("HJ32ZDH4ZF7E0001", JStr pack_text)].

Definition heartbeat (pwr : list Z) : json :=
  JObj [("pcsActPwr", JNum 12); ("emsBpPower", JNum 30);
        ("pcsAPhase", JObj [("vol", JNum 230); ("amp", JNum 2)]);
        ("pcsBPhase", JObj [("vol", JNum 231)]);
        ("pcsCPhase", JObj [("vol", JNum 229)]);
        ("mpptHeartBeat",
         JArr [JObj [("mpptPv",
           JArr ((λ q : Z, JObj [("vol", JNum 350); ("amp", JNum 1); ("pwr", JNum q)])
                   <$> pwr))]])].

(** The report root of one inverter. *)
Definition root (packs : list (string * json)) (pwr : list Z) : json :=
  JObj [("JTS1_EMS_CHANGE_REPORT", change_report);
        ("JTS1_BP_STA_REPORT", battery_report packs);
        ("JTS1_EMS_HEARTBEAT", heartbeat pwr)].

(** The same root with one report missing. *)
Definition without (report : string) (r : json) : json :=
  match r with
  | JObj kvs => JObj (filter (λ kv, kv.1 ≠ report) kvs)
  | _ => r
  end.

(** A response; [parallel] is the content of [data.parallel], if any. *)
Definition response (quota : json) (parallel : option (list (string * json)))
    : json :=
  JObj [("code", JStr "0"); ("message", JStr "Success");
        ("data",
         JObj ([("sysLoadPwr", JNum 420); ("mpptPwr", JNum 300);
                ("systemName", JStr "home"); ("quota", quota)]
               ++ match parallel with
                  | Some p => [("parallel", JObj p)]
                  | None => []
                  end))].

Definition good : json := root one_pack [100; 150; 50]%Z.

(** Two inverters whose serials are the two that [src/ecoflow.py] looks
    up by name; the instance is configured with [master]. *)
Definition master : string := "J32EZEH4ZG3S0104".
Definition slave : string := "J32EZEH4ZG3S0042".
Definition dual (m s : json) : json :=
  response good (Some [(master, m); (slave, s)]).

(** Two inverters with other serials; the instance is configured with
    [first]. *)
Definition first : string := "HJ31ZDH4ZF7E0001".
Definition second : string := "HJ31ZDH4ZF7E0002".
Definition other_dual : json :=
  response good (Some [(first, good); (second, good)]).

(** One inverter. *)
Definition single : json := response good None.

End Sample.

(** * Properties *)

(** Comparisons with literal keys stay folded under [simpl]. *)
#[local] Arguments String.eqb : simpl never.

(** ** Running computations that may raise *)

Lemma bind_Ok {A B} (m : py A) (k : A → py B) b :
  (m ≫= k) = Ok b → ∃ a, m = Ok a ∧ k a = Ok b.
Proof. destruct m; simpl; [eauto | discriminate]. Qed.

Lemma bind_raises {A B} (m : py A) (k : A → py B) :
  raises m → raises (m ≫= k).
Proof. intros [e ->]. by exists e. Qed.

Lemma bind_raises_later {A B} (m : py A) (k : A → py B) :
  (∀ a, raises (k a)) → raises (m ≫= k).
Proof. intros Hk. destruct m as [a|e]; simpl; [apply Hk | by exists e]. Qed.

Lemma mthen_Ok {A B} (m : method A) (k : A → method B) self b self' :
  mthen m k self = (Ok b, self') →
  ∃ a s, m self = (Ok a, s) ∧ k a s = (Ok b, self').
Proof.
  unfold mthen. destruct (m self) as [[a|e] s]; [eauto | discriminate].
Qed.

Lemma mthen_raises {A B} (m : method A) (k : A → method B) self :
  raises (m self).1 → raises (mthen m k self).1.
Proof.
  unfold mthen. destruct (m self) as [[a|e] s]; simpl; intros [e' He]; [discriminate|].
  by exists e.
Qed.

Lemma mthen_raises_later {A B} (m : method A) (k : A → method B) self :
  (∀ a s, m self = (Ok a, s) → raises (k a s).1) → raises (mthen m k self).1.
Proof.
  unfold mthen. destruct (m self) as [[a|e] s]; simpl; intros Hk; [by apply Hk|].
  by exists e.
Qed.

(** Peel the successful steps off a run that is known to return. *)
Ltac run H :=
  repeat
    (let a := fresh "a" in
     let E := fresh "E" in
     apply bind_Ok in H as (a & E & H)).

Ltac mrun H :=
  repeat
    (let a := fresh "a" in
     let s := fresh "s" in
     let E := fresh "E" in
     apply mthen_Ok in H as (a & s & E & H)).

Lemma for_each_inv {A B} (P : A → Prop) (body : A → B → py A) l :
  ∀ acc r,
    P acc →
    (∀ a x a', x ∈ l → P a → body a x = Ok a' → P a') →
    for_each body acc l = Ok r → P r.
Proof.
  induction l as [|x l IH]; intros acc r Hacc Hstep Hrun; simpl in Hrun.
  - by simplify_eq.
  - apply bind_Ok in Hrun as (a' & Hx & Hrun).
    eapply IH; [| |exact Hrun].
    + eapply Hstep; [|exact Hacc|exact Hx]. set_solver.
    + intros a y a'' Hy. apply Hstep. set_solver.
Qed.

(** Once some iteration has established [P] and every iteration keeps it,
    it holds when the loop is over. *)
Lemma for_each_establish {A B} (P : A → Prop) (body : A → B → py A) l x :
  x ∈ l →
  (∀ a a', body a x = Ok a' → P a') →
  (∀ a y a', y ∈ l → P a → body a y = Ok a' → P a') →
  ∀ acc r, for_each body acc l = Ok r → P r.
Proof.
  induction l as [|y l IH]; intros Hx Hest Hkeep acc r Hrun; [by inversion Hx|].
  simpl in Hrun. apply bind_Ok in Hrun as (a' & Hy & Hrun).
  apply elem_of_cons in Hx as [->|Hx].
  - eapply (for_each_inv P); [| |exact Hrun].
    + by eapply Hest.
    + intros a z a'' Hz. apply Hkeep. set_solver.
  - eapply IH; [done|done| |exact Hrun].
    intros a z a'' Hz. apply Hkeep. set_solver.
Qed.

(** An iteration that raises whatever the accumulator makes the loop raise. *)
Lemma for_each_raises {A B} (body : A → B → py A) l x :
  x ∈ l → (∀ a, raises (body a x)) → ∀ acc, raises (for_each body acc l).
Proof.
  induction l as [|y l IH]; intros Hx Hbad acc; [by inversion Hx|].
  simpl. apply elem_of_cons in Hx as [->|Hx].
  - apply bind_raises, Hbad.
  - apply bind_raises_later. intros a. by apply IH.
Qed.

Lemma foldl_inv {A B} (P : A → Prop) (f : A → B → A) l :
  ∀ acc, P acc → (∀ a x, x ∈ l → P a → P (f a x)) → P (foldl f acc l).
Proof.
  induction l as [|x l IH]; intros acc Hacc Hstep; simpl; [done|].
  apply IH.
  - apply Hstep; [set_solver|done].
  - intros a y Hy. apply Hstep. set_solver.
Qed.

Lemma foldl_establish {A B} (P : A → Prop) (f : A → B → A) l x :
  x ∈ l →
  (∀ a, P (f a x)) →
  (∀ a y, y ∈ l → P a → P (f a y)) →
  ∀ acc, P (foldl f acc l).
Proof.
  induction l as [|y l IH]; intros Hx Hest Hkeep acc; [by inversion Hx|].
  simpl. apply elem_of_cons in Hx as [->|Hx].
  - apply foldl_inv; [apply Hest|]. intros a z Hz. apply Hkeep. set_solver.
  - apply IH; [done|done|]. intros a z Hz. apply Hkeep. set_solver.
Qed.

Lemma elem_of_zip_seq {A} (l : list A) k i x :
  (i, x) ∈ zip (seq k (length l)) l ↔ ∃ j, i = k + j ∧ l !! j = Some x.
Proof.
  revert k. induction l as [|y l IH]; intros k; simpl.
  - rewrite elem_of_nil. split; [done|]. by intros (j & _ & ?).
  - rewrite elem_of_cons, IH. split.
    + intros [[= -> ->]|(j & -> & Hj)].
      * exists 0. split; [lia|done].
      * exists (S j). split; [lia|done].
    + intros (j & -> & Hj). destruct j as [|j]; simpl in Hj.
      * left. f_equal; [lia|congruence].
      * right. exists j. split; [lia|done].
Qed.

Lemma elem_of_enumerate {A} (l : list A) i x :
  (i, x) ∈ enumerate l ↔ l !! i = Some x.
Proof.
  unfold enumerate. rewrite elem_of_zip_seq. split.
  - by intros (j & -> & Hj).
  - intros Hi. by exists i.
Qed.

(** ** Lookups *)

Lemma assoc_Some_elem {V} k (kvs : list (string * V)) v :
  Py.assoc k kvs = Some v → (k, v) ∈ kvs.
Proof.
  induction kvs as [|[k' v'] kvs IH]; simpl; [done|].
  destruct (String.eqb_spec k k') as [<-|Hk].
  - intros [= ->]. left.
  - intros H. right. by apply IH.
Qed.

Lemma assoc_None {V} k (kvs : list (string * V)) :
  Py.assoc k kvs = None ↔ k ∉ kvs.*1.
Proof.
  induction kvs as [|[k' v'] kvs IH]; simpl.
  - split; [intros _; apply not_elem_of_nil|done].
  - rewrite not_elem_of_cons. destruct (String.eqb_spec k k') as [<-|Hk].
    + split; [done|]. by intros [? _].
    + rewrite IH. naive_solver.
Qed.

Lemma assoc_is_Some {V} k (kvs : list (string * V)) :
  is_Some (Py.assoc k kvs) ↔ k ∈ kvs.*1.
Proof.
  destruct (Py.assoc k kvs) as [v|] eqn:H.
  - split; [|by eauto]. intros _. apply list_elem_of_fmap.
    exists (k, v). split; [done|]. by apply assoc_Some_elem.
  - apply assoc_None in H. split; [by intros [? ?]|done].
Qed.

Lemma getitem_Ok v k x :
  Py.getitem v k = Ok x ↔ ∃ kvs, v = JObj kvs ∧ Py.assoc k kvs = Some x.
Proof.
  split.
  - destruct v; simpl; try done. destruct (Py.assoc k kvs) eqn:H; [|done].
    intros [= ->]. eauto.
  - intros (kvs & -> & H). simpl. by rewrite H.
Qed.

(** A loop whose every iteration returns, returns. *)
Lemma for_each_total {A B} (P : A → Prop) (body : A → B → py A) l :
  (∀ a x, x ∈ l → P a → ∃ a', body a x = Ok a' ∧ P a') →
  ∀ acc, P acc → ∃ r, for_each body acc l = Ok r ∧ P r.
Proof.
  induction l as [|x l IH]; intros Hstep acc Hacc; simpl; [by exists acc|].
  destruct (Hstep acc x) as (a' & -> & Ha'); [set_solver|done|]. simpl.
  apply IH; [|done]. intros a y Hy. apply Hstep. set_solver.
Qed.

(** ** Unit inference and the fault-code pattern on sample keys *)

Example unit_bpAmp : __get_unit "bpAmp" = Some "A".
Proof. reflexivity. Qed.

Example unit_sysLoadPwr : __get_unit "sysLoadPwr" = Some "W".
Proof. reflexivity. Qed.

Example unit_totalElectricityGeneration :
  __get_unit "totalElectricityGeneration" = Some "kWh".
Proof. reflexivity. Qed.

Example unit_systemName : __get_unit "systemName" = None.
Proof. reflexivity. Qed.

Example unit_bpTemp : __get_unit "bpTemp" = Some degC.
Proof. reflexivity. Qed.

Example description_bpSoc : __get_description "bpSoc" = "Ladezustand der Batterie".
Proof. reflexivity. Qed.

Example description_default : __get_description "pcsActPwr" = "pcsActPwr".
Proof. reflexivity. Qed.

Example match_fault_code : Str.match_mppt_Code "mppt1FaultCode" = true.
Proof. reflexivity. Qed.

Example match_is_not_anchored_at_the_end :
  Str.match_mppt_Code "mpptCodeVersion" = true.
Proof. reflexivity. Qed.

Example match_is_anchored_at_the_start :
  Str.match_mppt_Code "pcsmpptCode" = false.
Proof. reflexivity. Qed.

(** ** Every record is stored under its own identifier *)

Lemma keyed_empty : keyed ∅.
Proof. apply map_Forall_empty. Qed.

Lemma keyed_insert (m : sensors_t) k r :
  EndPoint.internal_unique_id r = k → keyed m → keyed (<[k:=r]> m).
Proof. intros Hk Hm. by apply map_Forall_insert_2. Qed.

Lemma keyed_union (m1 m2 : sensors_t) : keyed m1 → keyed m2 → keyed (m1 ∪ m2).
Proof. apply map_Forall_union_2. Qed.

Lemma keyed_emits_one (data : sensors_t) id :
  keyed data → is_Some (data !! id) → emits_one data id.
Proof.
  intros Hkeyed Hid. split; [done|]. intros k r Hr <-. symmetry.
  exact (Hkeyed k r Hr).
Qed.

Create HintDb keyed.
#[local] Hint Resolve keyed_empty keyed_insert keyed_union : keyed.

Section Keyed.

Variable json_loads : json → py json.

Lemma get_sensors_data_keyed self response m :
  __get_sensors_data self response = Ok m → keyed m.
Proof.
  unfold __get_sensors_data. intros H. run H. simplify_eq.
  apply (foldl_inv keyed); [auto with keyed|].
  intros data [key value] _ Hdata.
  repeat case_match; auto with keyed.
Qed.

Lemma ems_change_keyed sens_select inverter_dataset sensors sn' suffix out :
  keyed sensors →
  ems_change sens_select inverter_dataset sensors sn' suffix = Ok out →
  keyed out.
Proof.
  unfold ems_change. intros Hs H. run H. simplify_eq.
  apply keyed_union; [|done].
  apply (foldl_inv keyed); [auto with keyed|].
  intros data [key value] _ Hdata.
  case_match; auto with keyed.
Qed.

Lemma battery_pack_keyed d sn' suffix data ibat bat data' :
  keyed data →
  battery_pack json_loads d sn' suffix data ibat bat = Ok data' →
  keyed data'.
Proof.
  unfold battery_pack. intros Hd H. run H. simplify_eq.
  apply keyed_insert; [done|].
  apply (foldl_inv keyed); [done|].
  intros m [key value] _ Hm.
  case_match; auto with keyed.
Qed.

(** What the battery-pack extractor adds does not depend on the map it
    is given. *)
Lemma get_sensors_battery_emits inverter_data sensors sn' suffix out :
  __get_sensors_battery json_loads inverter_data sensors sn' suffix = Ok out →
  ∃ data,
    keyed data
    ∧ ∀ sensors',
        __get_sensors_battery json_loads inverter_data sensors' sn' suffix
        = Ok (data ∪ sensors').
Proof.
  unfold __get_sensors_battery. intros H.
  apply bind_Ok in H as (d & Hd & H).
  apply bind_Ok in H as (keys & Hkeys & H).
  apply bind_Ok in H as (data & Hloop & _).
  exists data. split.
  - eapply (for_each_inv keyed); [apply keyed_empty| |exact Hloop].
    intros m [ibat bat] m' _ Hm Hstep.
    by eapply battery_pack_keyed.
  - intros sensors'. rewrite Hd. cbn [mbind py_bind]. rewrite Hkeys.
    cbn [mbind py_bind]. by rewrite Hloop.
Qed.

Lemma get_sensors_battery_keyed inverter_data sensors sn' suffix out :
  keyed sensors →
  __get_sensors_battery json_loads inverter_data sensors sn' suffix = Ok out →
  keyed out.
Proof.
  intros Hs H.
  destruct (get_sensors_battery_emits _ _ _ _ _ H) as (data & Hdata & Hrun).
  rewrite Hrun in H. injection H as <-. by apply keyed_union.
Qed.

Lemma heartbeat_string_keyed self d sn' suffix st pv_string st' :
  keyed st.1.1 →
  heartbeat_string self d sn' suffix st pv_string = Ok st' →
  keyed st'.1.1.
Proof.
  unfold heartbeat_string. destruct pv_string as [i mpptpv]. intros Hst H.
  run H.
  eapply (for_each_inv (λ st, keyed st.1.1)); [exact Hst| |exact H].
  intros [[data key] total] [k v] st2 _ Hdata Hstep.
  unfold heartbeat_field in Hstep. run Hstep. simplify_eq.
  simpl in *. auto with keyed.
Qed.

(** What the heartbeat extractor adds does not depend on the map it is
    given. *)
Lemma get_sensors_ems_heartbeat_emits self inverter_data sensors sn' suffix out :
  __get_sensors_ems_heartbeat self inverter_data sensors sn' suffix = Ok out →
  ∃ data,
    keyed data
    ∧ ∀ sensors',
        __get_sensors_ems_heartbeat self inverter_data sensors' sn' suffix
        = Ok (data ∪ sensors').
Proof.
  unfold __get_sensors_ems_heartbeat. intros H.
  apply bind_Ok in H as (d & Hd & H).
  apply bind_Ok in H as (its & Hits & H).
  apply bind_Ok in H as (st & Hphases & H).
  apply bind_Ok in H as (pv & Hpv & H).
  apply bind_Ok in H as (n_strings & Hlen & H).
  apply bind_Ok in H as ([[data key] total] & Hstrings & H).
  apply bind_Ok in H as (k & Hkey & _).
  eexists. split; [|intros sensors'; rewrite Hd; cbn [mbind py_bind];
                    rewrite Hits; cbn [mbind py_bind]; rewrite Hphases;
                    cbn [mbind py_bind]; rewrite Hpv; cbn [mbind py_bind];
                    rewrite Hlen; cbn [mbind py_bind]; rewrite Hstrings;
                    cbn [mbind py_bind]; rewrite Hkey; reflexivity].
  apply keyed_insert; [done|].
  change data with (data, key, total).1.1.
  eapply (for_each_inv (λ st, keyed st.1.1)); [| |exact Hstrings].
  - simpl.
    eapply (for_each_inv (λ st, keyed st.1)); [| |exact Hphases].
    + apply (foldl_inv (λ st, keyed st.1)); [apply keyed_empty|].
      intros [m k0] [k' v] _ Hm. simpl in *. case_match; auto with keyed.
    + intros [m k0] phase st' _ Hm Hstep. run Hstep. simplify_eq.
      apply (foldl_inv (λ st, keyed st.1)); [done|].
      intros [m1 k1] [k' v] _ Hm1. simpl in *. auto with keyed.
  - intros st0 pv_string st' _ Hst Hstep.
    by eapply heartbeat_string_keyed.
Qed.

Lemma get_sensors_ems_heartbeat_keyed self inverter_data sensors sn' suffix out :
  keyed sensors →
  __get_sensors_ems_heartbeat self inverter_data sensors sn' suffix = Ok out →
  keyed out.
Proof.
  intros Hs H.
  destruct (get_sensors_ems_heartbeat_emits _ _ _ _ _ _ H)
    as (data & Hdata & Hrun).
  rewrite Hrun in H. injection H as <-. by apply keyed_union.
Qed.

Lemma Root_inverter_keyed data serial suffix sensors self out self' :
  keyed sensors →
  Root.inverter json_loads data serial suffix sensors self = (Ok out, self') →
  keyed out.
Proof.
  unfold Root.inverter. intros Hs H. mrun H.
  unfold lift, read, read_attr in *. simplify_eq.
  eapply get_sensors_ems_heartbeat_keyed; [|done].
  eapply get_sensors_battery_keyed; [|done].
  by eapply ems_change_keyed.
Qed.

Lemma Component_inverter_keyed data serial suffix sensors self out self' :
  keyed sensors →
  Component.inverter json_loads data serial suffix sensors self = (Ok out, self') →
  keyed out.
Proof.
  unfold Component.inverter. intros Hs H. mrun H.
  unfold lift, read, read_attr in *. simplify_eq.
  eapply get_sensors_ems_heartbeat_keyed; [|done].
  eapply get_sensors_battery_keyed; [|done].
  by eapply ems_change_keyed.
Qed.

End Keyed.

(** C10. In the map that [_get_sensors] of [src/ecoflow.py] returns, every
    record is stored under the key that equals its own
    [internal_unique_id]. *)
Theorem C10_key_is_internal_unique_id json_loads response self sensors self' :
  Root._get_sensors json_loads response self = (Ok (Some sensors), self') →
  ∀ key r, sensors !! key = Some r → EndPoint.internal_unique_id r = key.
Proof.
  unfold Root._get_sensors. intros H.
  apply mthen_Ok in H as (serials & s & _ & H).
  assert (keyed sensors) as Hk; [|exact Hk].
  repeat case_match; mrun H; unfold mreturn, lift, read in *; simplify_eq.
  - eapply Root_inverter_keyed; [|done].
    eapply Root_inverter_keyed; [|done].
    by eapply get_sensors_data_keyed.
  - eapply Root_inverter_keyed; [|done].
    by eapply get_sensors_data_keyed.
Qed.

(** The same holds of the revision under [custom_components/powerocean]. *)
Lemma Component_key_is_internal_unique_id json_loads response self sensors self' :
  Component._get_sensors json_loads response self = (Ok sensors, self') →
  keyed sensors.
Proof.
  unfold Component._get_sensors. intros H.
  apply mthen_Ok in H as (serials & s & _ & H).
  repeat case_match; mrun H; unfold mreturn, lift, read in *; simplify_eq.
  - eapply Component_inverter_keyed; [|done].
    eapply Component_inverter_keyed; [|done].
    by eapply get_sensors_data_keyed.
  - eapply Component_inverter_keyed; [|done].
    by eapply get_sensors_data_keyed.
  - eapply Component_inverter_keyed; [|done].
    by eapply get_sensors_data_keyed.
Qed.

(** ** Strings *)

Lemma prefix_spec p s : String.prefix p s = true ↔ ∃ r, s = p +:+ r.
Proof.
  revert s. induction p as [|c p IH]; intros s; simpl.
  - split; [intros _; by exists s|]. by destruct s.
  - destruct s as [|c' s]; simpl.
    + split; [done|]. by intros (r & ?).
    + destruct (Ascii.ascii_dec c c') as [->|Hc].
      * rewrite IH. split; intros (r & Hr); exists r.
        -- by rewrite Hr.
        -- by injection Hr.
      * split; [done|]. intros (r & Hr). by injection Hr as <-.
Qed.

Lemma chars_app a b :
  list_ascii_of_string (a +:+ b) = list_ascii_of_string a ++ list_ascii_of_string b.
Proof. induction a as [|c a IH]; simpl; [done|]. by rewrite IH. Qed.

Lemma chars_inj a b : list_ascii_of_string a = list_ascii_of_string b → a = b.
Proof.
  intros H. rewrite <- (string_of_list_ascii_of_string a).
  rewrite <- (string_of_list_ascii_of_string b). by rewrite H.
Qed.

(** [.*Code] matches a prefix of [body] exactly when [body] reads: a run
    without line feed, then [Code], then anything. *)
Lemma dotstar_Code_spec body :
  Str.dotstar_Code body = true ↔
  ∃ a b, body = a +:+ "Code" +:+ b ∧ Str.newline ∉ list_ascii_of_string a.
Proof.
  induction body as [|c body IH]; simpl.
  - split; [done|]. intros (a & b & Hab & _).
    destruct a; simpl in Hab; discriminate.
  - rewrite orb_true_iff. split.
    + intros [Hp|Hrest].
      * apply (prefix_spec "Code" (String c body)) in Hp as (r & Hr).
        exists EmptyString, r. split; [done|]. simpl. apply not_elem_of_nil.
      * destruct (Ascii.eqb_spec c Str.newline) as [->|Hc]; [done|].
        apply IH in Hrest as (a & b & -> & Ha).
        exists (String c a), b. split; [done|]. simpl.
        rewrite not_elem_of_cons. split; [congruence|done].
    + intros (a & b & Hab & Ha). destruct a as [|c' a]; simpl in *.
      * left. apply (prefix_spec "Code" (String c body)). by exists b.
      * injection Hab as <- ->. apply not_elem_of_cons in Ha as [Hc Ha].
        right. destruct (Ascii.eqb_spec c Str.newline) as [->|_]; [done|].
        apply IH. by exists a, b.
Qed.

(** What [re.compile("mppt.*Code").match] accepts. *)
Lemma match_mppt_Code_spec key :
  Str.match_mppt_Code key = true ↔
  ∃ a b, key = "mppt" +:+ a +:+ "Code" +:+ b
         ∧ Str.newline ∉ list_ascii_of_string a.
Proof.
  split.
  - intros H.
    do 4 (destruct key as [|[[] [] [] [] [] [] [] []] key]; try done).
    apply dotstar_Code_spec in H as (a & b & -> & Ha). by exists a, b.
  - intros (a & b & -> & Ha). change (Str.dotstar_Code (a +:+ "Code" +:+ b) = true).
    apply dotstar_Code_spec. by exists a, b.
Qed.

(** ** Loops that fill the map *)

Lemma foldl_ext {A B} (f g : A → B → A) l :
  (∀ a x, f a x = g a x) → ∀ acc, foldl f acc l = foldl g acc l.
Proof.
  intros Hfg. induction l as [|x l IH]; intros acc; simpl; [done|].
  by rewrite Hfg, IH.
Qed.

Section Emit.

Context {B : Type} (sel : B → bool) (uid : B → string)
  (rec : B → PowerOceanEndPoint).

Lemma emit_lookup_Some l : ∀ acc id r,
  foldl (emit sel uid rec) acc l !! id = Some r →
  acc !! id = Some r ∨ ∃ x, x ∈ l ∧ sel x = true ∧ uid x = id ∧ rec x = r.
Proof.
  induction l as [|x l IH]; intros acc id r H; simpl in H; [by left|].
  apply IH in H as [H|(y & Hy & ?)].
  - unfold emit in H. destruct (sel x) eqn:Hx; [|by left].
    apply lookup_insert_Some in H as [[Hid Hr]|[_ H]]; [|by left].
    right. exists x. split; [set_solver|done].
  - right. exists y. split; [set_solver|done].
Qed.

Lemma emit_mono l : ∀ acc id,
  is_Some (acc !! id) → is_Some (foldl (emit sel uid rec) acc l !! id).
Proof.
  induction l as [|x l IH]; intros acc id H; simpl; [done|].
  apply IH. unfold emit. destruct (sel x); [|done].
  rewrite lookup_insert_is_Some'. by right.
Qed.

Lemma emit_is_Some l x : ∀ acc,
  x ∈ l → sel x = true → is_Some (foldl (emit sel uid rec) acc l !! uid x).
Proof.
  induction l as [|y l IH]; intros acc Hx Hsel; [by inversion Hx|].
  simpl. apply elem_of_cons in Hx as [->|Hx]; [|by apply IH].
  apply emit_mono. unfold emit. rewrite Hsel.
  rewrite lookup_insert_is_Some'. by left.
Qed.

Lemma emit_other l id : ∀ acc,
  (∀ x, x ∈ l → sel x = true → uid x ≠ id) →
  foldl (emit sel uid rec) acc l !! id = acc !! id.
Proof.
  induction l as [|x l IH]; intros acc H; simpl; [done|].
  rewrite IH; [|intros y Hy; apply H; set_solver].
  unfold emit. destruct (sel x) eqn:Hx; [|done].
  apply lookup_insert_ne. apply H; [set_solver|done].
Qed.

End Emit.

(** ** The change-report extractor *)

Lemma ems_change_spec sens_select inverter_dataset sensors inverter_sn
    inverter_string d :
  Py.getitem inverter_dataset "JTS1_EMS_CHANGE_REPORT" = Ok (JObj d) →
  ∃ data : sensors_t,
    ems_change sens_select inverter_dataset sensors inverter_sn inverter_string
      = Ok (data ∪ sensors)
    ∧ (∀ key, key ∈ d.*1 →
         is_Some (data !! (inverter_sn +:+ "_" +:+ "JTS1_EMS_CHANGE_REPORT"
                             +:+ "_" +:+ key))
         ↔ key ∈ sens_select ∨ Str.match_mppt_Code key = true)
    ∧ (∀ id r, data !! id = Some r →
         ∃ key value, (key, value) ∈ d
           ∧ id = inverter_sn +:+ "_" +:+ "JTS1_EMS_CHANGE_REPORT" +:+ "_" +:+ key
           ∧ EndPoint.internal_unique_id r = id
           ∧ EndPoint.serial r = inverter_sn
           ∧ EndPoint.value r = value).
Proof.
  intros Hd. unfold ems_change. rewrite Hd. simpl.
  set (sel := λ kv : string * json,
         bool_decide (kv.1 ∈ sens_select
                        ++ filter (λ k, Str.match_mppt_Code k = true) d.*1)).
  set (uid := λ kv : string * json,
         inverter_sn +:+ "_" +:+ "JTS1_EMS_CHANGE_REPORT" +:+ "_" +:+ kv.1).
  set (rec := λ kv : string * json,
         {| EndPoint.internal_unique_id := uid kv;
            EndPoint.serial := inverter_sn;
            EndPoint.name := inverter_sn +:+ "_" +:+ kv.1;
            EndPoint.friendly_name := kv.1 +:+ inverter_string;
            EndPoint.value := kv.2;
            EndPoint.unit := __get_unit kv.1;
            EndPoint.description := __get_description kv.1;
            EndPoint.icon := None |}).
  exists (foldl (emit sel uid rec) ∅ d). split.
  { do 2 f_equal. apply foldl_ext. by intros a [k v]. }
  assert (∀ key v, key ∈ d.*1 →
            sel (key, v) = true
            ↔ key ∈ sens_select ∨ Str.match_mppt_Code key = true) as Hsel.
  { intros key v Hkey. unfold sel. simpl. rewrite bool_decide_eq_true.
    rewrite elem_of_app, list_elem_of_filter. naive_solver. }
  split.
  - intros key Hkey. split.
    + intros [r Hr]. apply emit_lookup_Some in Hr as [Hr|([k v] & Hx & Hs & Hu & _)].
      { by rewrite lookup_empty in Hr. }
      unfold uid in Hu. simpl in Hu.
      do 4 apply (inj (String.app _)) in Hu. subst k.
      by apply (Hsel key v Hkey).
    + intros Hk. apply list_elem_of_fmap in Hkey as ([k v] & -> & Hkv).
      apply (emit_is_Some sel uid rec d (k, v)); [done|].
      apply (Hsel k v); [|done]. apply list_elem_of_fmap. by exists (k, v).
  - intros id r Hr.
    apply emit_lookup_Some in Hr as [Hr|([k v] & Hx & Hs & Hu & Hrec)].
    { by rewrite lookup_empty in Hr. }
    exists k, v. subst r id. done.
Qed.

(** C6, as the code has it. The change-report extractor of
    [src/ecoflow.py] emits a record for a key of [JTS1_EMS_CHANGE_REPORT]
    exactly when the key is one of the six listed names or reads [mppt],
    then any characters other than a line feed, then [Code], then anything;
    the key need not end with [Code].  Every emitted record is stored under
    [{inverter_sn}_JTS1_EMS_CHANGE_REPORT_{key}], which is also its
    [internal_unique_id]. *)
Theorem C6_change_report_selection inverter_dataset sensors inverter_sn
    inverter_string d :
  Py.getitem inverter_dataset "JTS1_EMS_CHANGE_REPORT" = Ok (JObj d) →
  ∃ data : sensors_t,
    Root.__get_sensors_ems_change inverter_dataset sensors inverter_sn
      inverter_string = Ok (data ∪ sensors)
    ∧ (∀ key, key ∈ d.*1 →
         is_Some (data !! (inverter_sn +:+ "_" +:+ "JTS1_EMS_CHANGE_REPORT"
                             +:+ "_" +:+ key))
         ↔ key ∈ ["bpTotalChgEnergy"; "bpTotalDsgEnergy"; "bpSoc";
                  "bpOnlineSum"; "emsCtrlLedBright"; "emsWordMode"]
           ∨ ∃ a b, key = "mppt" +:+ a +:+ "Code" +:+ b
                    ∧ Str.newline ∉ list_ascii_of_string a)
    ∧ (∀ id r, data !! id = Some r →
         ∃ key, key ∈ d.*1
           ∧ id = inverter_sn +:+ "_" +:+ "JTS1_EMS_CHANGE_REPORT" +:+ "_" +:+ key
           ∧ EndPoint.internal_unique_id r = id).
Proof.
  intros Hd.
  destruct (ems_change_spec
              ["bpTotalChgEnergy"; "bpTotalDsgEnergy"; "bpSoc"; "bpOnlineSum";
               "emsCtrlLedBright"; "emsWordMode"]
              inverter_dataset sensors inverter_sn inverter_string d Hd)
    as (data & Hrun & Hsel & Hid).
  exists data. split; [exact Hrun|]. split.
  - intros key Hkey. rewrite (Hsel key Hkey), match_mppt_Code_spec. done.
  - intros id r Hr. destruct (Hid id r Hr) as (key & value & Hin & -> & Hr' & _).
    exists key. split; [|done]. apply list_elem_of_fmap. by exists (key, value).
Qed.

(** The older revision does the same with a list of five names:
    [emsWordMode] is not among them. *)
Lemma Component_change_report_selection inverter_dataset sensors inverter_sn
    inverter_string d :
  Py.getitem inverter_dataset "JTS1_EMS_CHANGE_REPORT" = Ok (JObj d) →
  ∃ data : sensors_t,
    Component.__get_sensors_ems_change inverter_dataset sensors inverter_sn
      inverter_string = Ok (data ∪ sensors)
    ∧ (∀ key, key ∈ d.*1 →
         is_Some (data !! (inverter_sn +:+ "_" +:+ "JTS1_EMS_CHANGE_REPORT"
                             +:+ "_" +:+ key))
         ↔ key ∈ ["bpTotalChgEnergy"; "bpTotalDsgEnergy"; "bpSoc";
                  "bpOnlineSum"; "emsCtrlLedBright"]
           ∨ Str.match_mppt_Code key = true).
Proof.
  intros Hd.
  destruct (ems_change_spec
              ["bpTotalChgEnergy"; "bpTotalDsgEnergy"; "bpSoc"; "bpOnlineSum";
               "emsCtrlLedBright"]
              inverter_dataset sensors inverter_sn inverter_string d Hd)
    as (data & Hrun & Hsel & _).
  by exists data.
Qed.

(** C6 as stated fails on the key [mpptCodeVersion]: it is none of the six
    names and does not end with [Code], and a record is emitted for it. *)
Lemma C6_counterexample :
  ("mpptCodeVersion" ∉ ["bpTotalChgEnergy"; "bpTotalDsgEnergy"; "bpSoc";
                        "bpOnlineSum"; "emsCtrlLedBright"; "emsWordMode"])
  ∧ Str.endswith "mpptCodeVersion" "Code" = false
  ∧ (EndPoint.value <$>
       emitted
         (Root.__get_sensors_ems_change
            (JObj [("JTS1_EMS_CHANGE_REPORT", JObj [("mpptCodeVersion", JNum 3)])])
            ∅ "HJ31ZDH4ZF7E0001" "")
         "HJ31ZDH4ZF7E0001_JTS1_EMS_CHANGE_REPORT_mpptCodeVersion")
    = Some (JNum 3).
Proof.
  split; [|split].
  - intros H. repeat (apply elem_of_cons in H as [H|H]; [discriminate H|]).
    by inversion H.
  - reflexivity.
  - vm_compute. reflexivity.
Qed.

Lemma C6_witness :
  Py.getitem Sample.good "JTS1_EMS_CHANGE_REPORT" = Ok Sample.change_report
  ∧ ∃ data : sensors_t,
      Root.__get_sensors_ems_change Sample.good ∅ Sample.master "_master"
        = Ok (data ∪ ∅)
      ∧ is_Some (data !! "J32EZEH4ZG3S0104_JTS1_EMS_CHANGE_REPORT_mppt1FaultCode").
Proof.
  split; [reflexivity|].
  destruct (C6_change_report_selection Sample.good ∅ Sample.master "_master"
              _ eq_refl) as (data & Hrun & Hsel & _).
  exists data. split; [exact Hrun|].
  apply (Hsel "mppt1FaultCode").
  - vm_compute. do 3 right. left.
  - right. exists "1Fault", "". split; [reflexivity|]. vm_compute.
    intros H. repeat (apply elem_of_cons in H as [H|H]; [discriminate H|]).
    by inversion H.
Defined.

(** ** The topology resolver *)

(** [src/ecoflow.py] returns from [_get_serial_numbers] only for a response
    whose [data.parallel] holds the two serials its lookups name. *)
Lemma Root_resolver_needs_builtin_serials response self n self' :
  Root._get_serial_numbers response self = (Ok n, self') →
  ∃ data parallel m s,
    Py.getitem response "data" = Ok data
    ∧ Py.getitem data "parallel" = Ok parallel
    ∧ Py.getitem parallel "J32EZEH4ZG3S0104" = Ok m
    ∧ Py.getitem parallel "J32EZEH4ZG3S0042" = Ok s.
Proof.
  unfold Root._get_serial_numbers. intros H.
  apply mthen_Ok in H as (p_data & s0 & Hlog & _).
  unfold lift in Hlog. injection Hlog as Hlog _.
  unfold Root.logged_lookups in Hlog. run Hlog.
  apply bind_Ok in E9 as (d1 & Hd1 & E9).
  apply bind_Ok in E9 as (p1 & Hp1 & Hm).
  apply bind_Ok in E11 as (d2 & Hd2 & E11).
  apply bind_Ok in E11 as (p2 & Hp2 & Hs).
  assert (d2 = d1) as -> by congruence.
  assert (p2 = p1) as -> by congruence.
  eauto 10.
Qed.

(** Where [src/ecoflow.py] does return, with two keys under [parallel] one
    of which is the configured serial, the instance's own serial takes the
    master role and its sub-tree becomes the master report root. *)
Lemma Root_resolver_master_is_own_serial response self n self' data k1 v1 k2 v2 :
  Root._get_serial_numbers response self = (Ok n, self') →
  Py.getitem response "data" = Ok data →
  Py.getitem data "parallel" = Ok (JObj [(k1, v1); (k2, v2)]) →
  k1 ≠ k2 →
  sn self = k1 ∨ sn self = k2 →
  n = 2
  ∧ sn self' = sn self
  ∧ master_sn self' = Some (sn self)
  ∧ master_data self' = Some (if decide (sn self = k1) then v1 else v2)
  ∧ slave_sn self' = Some (if decide (sn self = k1) then k2 else k1)
  ∧ slave_data self' = Some (if decide (sn self = k1) then v2 else v1).
Proof.
  intros H Hdata Hpar Hne Hown.
  unfold Root._get_serial_numbers in H.
  apply mthen_Ok in H as (p_data & s0 & Hlog & H).
  unfold lift in Hlog. injection Hlog as Hlog <-.
  assert (p_data = data) as ->.
  { unfold Root.logged_lookups in Hlog. run Hlog. congruence. }
  apply mthen_Ok in H as (keys & s1 & Hkeys & H).
  unfold lift in Hkeys. injection Hkeys as Hkeys <-.
  assert ("parallel" ∈ keys) as Hin.
  { apply getitem_Ok in Hpar as (kvs & -> & Hpar). simplify_eq/=.
    apply assoc_is_Some. eauto. }
  rewrite bool_decide_eq_true_2 in H by done.
  unfold Root.segment, mthen, lift, assign, read, read_attr, mreturn in H.
  rewrite Hdata in H. simpl in H. rewrite Hpar in H. simpl in H.
  destruct (String.eqb_spec k2 k1) as [?|Hk21]; [congruence|].
  destruct (String.eqb_spec k1 (sn self)) as [Hk1|Hk1]; simpl in H;
    rewrite ?String.eqb_refl in H; simpl in H;
    destruct (String.eqb_spec k2 k1) as [?|_]; try congruence;
    simpl in H; injection H as <- <-; simpl.
  - rewrite !decide_True by done. by rewrite <- Hk1.
  - destruct Hown as [?|Hk2]; [congruence|].
    rewrite !decide_False by congruence. by rewrite Hk2.
Qed.

(** The older revision reads the count [0] off a response without
    [parallel] and keeps [data.quota] as the report root. *)
Lemma Component_resolver_single response self data kvs quota :
  Py.getitem response "data" = Ok data →
  data = JObj kvs →
  "parallel" ∉ kvs.*1 →
  Py.getitem data "quota" = Ok quota →
  Component._get_serial_numbers response self = (Ok 0, set_master_data quota self).
Proof.
  intros Hdata -> Hno Hquota.
  unfold Component._get_serial_numbers, mthen, lift, assign, mreturn.
  rewrite Hdata. simpl. rewrite bool_decide_eq_false_2 by done.
  simpl in *. by rewrite Hquota.
Qed.

(** C1. A response with exactly two keys under [parallel], the first of
    them the configured serial.  [src/ecoflow.py] raises on the lookup of
    a serial that is written into the resolver, before it compares
    anything; the older revision gives the master role to the last key,
    which is not the configured serial. *)
Theorem C1_resolver_on_other_serials :
  (Root._get_serial_numbers Sample.other_dual (init Sample.first)).1
    = Raise (KeyError "J32EZEH4ZG3S0104")
  ∧ (Component._get_serial_numbers Sample.other_dual (init Sample.first)).1
    = Ok 2
  ∧ master_sn (Component._get_serial_numbers Sample.other_dual (init Sample.first)).2
    = Some Sample.second.
Proof. by vm_compute. Qed.

(** Where the resolver of [src/ecoflow.py] returns a count other than 0
    and 2, [_get_sensors] returns without a map. *)
Lemma Root_get_sensors_aborts json_loads response self n self' :
  Root._get_serial_numbers response self = (Ok n, self') →
  n ≠ 2 → n ≠ 0 →
  Root._get_sensors json_loads response self = (Ok None, self').
Proof.
  intros Hres H2 H0. unfold Root._get_sensors, mthen. rewrite Hres.
  by rewrite !bool_decide_eq_false_2.
Qed.

(** C2. One key, or none, under [parallel]: [_get_sensors] raises in both
    revisions.  [src/ecoflow.py] reaches its [return] only when the two
    serials it looks up by name are among three or more keys. *)
Theorem C2_key_counts_other_than_two :
  (Root._get_sensors Sample.json_loads
     (Sample.response Sample.good (Some [(Sample.first, Sample.good)]))
     (init Sample.first)).1 = Raise (KeyError "J32EZEH4ZG3S0104")
  ∧ (Root._get_sensors Sample.json_loads
       (Sample.response Sample.good (Some [(Sample.master, Sample.good)]))
       (init Sample.master)).1 = Raise (KeyError "J32EZEH4ZG3S0042")
  ∧ (Root._get_sensors Sample.json_loads
       (Sample.response Sample.good (Some []))
       (init Sample.first)).1 = Raise (KeyError "J32EZEH4ZG3S0104")
  ∧ (Component._get_sensors Sample.json_loads
       (Sample.response Sample.good (Some [(Sample.first, Sample.good)]))
       (init Sample.first)).1 = Raise UnboundLocalError
  ∧ (Component._get_sensors Sample.json_loads
       (Sample.response Sample.good (Some []))
       (init Sample.first)).1 = Raise StopIteration
  ∧ (Root._get_sensors Sample.json_loads
       (Sample.response Sample.good
          (Some [(Sample.master, Sample.good); (Sample.slave, Sample.good);
                 (Sample.first, Sample.good)]))
       (init Sample.master)).1 = Ok None.
Proof. by vm_compute. Qed.

(** C3. A response without [parallel]: the resolver of [src/ecoflow.py]
    raises on its lookup of [response["data"]["parallel"]]; the older
    revision returns [0], and then [_get_sensors] raises on reading
    [self.master_sn], which the single-inverter path never assigns. *)
Theorem C3_single_topology_raises :
  (Root._get_serial_numbers Sample.single (init Sample.first)).1
    = Raise (KeyError "parallel")
  ∧ (Root._get_sensors Sample.json_loads Sample.single (init Sample.first)).1
    = Raise (KeyError "parallel")
  ∧ (Component._get_serial_numbers Sample.single (init Sample.first)).1 = Ok 0
  ∧ (Component._get_sensors Sample.json_loads Sample.single (init Sample.first)).1
    = Raise AttributeError.
Proof. by vm_compute. Qed.

(** [src/ecoflow.py] never reports the single topology: when the resolver
    returns, the count is at least two. *)
Lemma Root_resolver_never_single response self n self' :
  Root._get_serial_numbers response self = (Ok n, self') → 2 ≤ n.
Proof.
  intros H.
  destruct (Root_resolver_needs_builtin_serials _ _ _ _ H)
    as (data & parallel & m & s & Hdata & Hpar & Hm & Hs).
  unfold Root._get_serial_numbers in H.
  apply mthen_Ok in H as (p_data & s0 & Hlog & H).
  unfold lift in Hlog. injection Hlog as Hlog <-.
  assert (p_data = data) as ->.
  { unfold Root.logged_lookups in Hlog. run Hlog. congruence. }
  apply mthen_Ok in H as (keys & s1 & Hkeys & H).
  case_bool_decide as Hin.
  - apply mthen_Ok in H as (p & s2 & Hp & H).
    unfold lift in Hp. rewrite Hdata in Hp. simpl in Hp. rewrite Hpar in Hp.
    injection Hp as <- _.
    apply getitem_Ok in Hm as (kvs & -> & Hm).
    apply getitem_Ok in Hs as (kvs' & [= <-] & Hs).
    apply assoc_Some_elem in Hm, Hs.
    mrun H. unfold lift, mreturn in *. simplify_eq/=.
    destruct kvs as [|x [|y kvs]]; simpl; [by inversion Hm| |lia].
    apply list_elem_of_singleton in Hm, Hs. congruence.
  - exfalso. apply Hin. unfold lift in Hkeys. injection Hkeys as Hkeys _.
    apply getitem_Ok in Hpar as (kvs & -> & Hpar). simplify_eq/=.
    apply assoc_is_Some. eauto.
Qed.

(** ** Exceptions are not caught *)

Section Abort.

Variable json_loads : json → py json.

(** An extractor whose report is missing raises the lookup failure. *)
Lemma ems_change_missing sens_select inv sensors s x e :
  Py.getitem inv "JTS1_EMS_CHANGE_REPORT" = Raise e →
  ems_change sens_select inv sensors s x = Raise e.
Proof. intros H. unfold ems_change. by rewrite H. Qed.

Lemma get_sensors_battery_missing inv sensors s x e :
  Py.getitem inv "JTS1_BP_STA_REPORT" = Raise e →
  __get_sensors_battery json_loads inv sensors s x = Raise e.
Proof. intros H. unfold __get_sensors_battery. by rewrite H. Qed.

Lemma get_sensors_ems_heartbeat_missing self inv sensors s x e :
  Py.getitem inv "JTS1_EMS_HEARTBEAT" = Raise e →
  __get_sensors_ems_heartbeat self inv sensors s x = Raise e.
Proof. intros H. unfold __get_sensors_ems_heartbeat. by rewrite H. Qed.

(** A pack whose text does not decode makes the whole extractor raise. *)
Lemma battery_pack_undecodable d s x data ibat bat raw e :
  Py.getitem d bat = Ok raw →
  json_loads raw = Raise e →
  battery_pack json_loads d s x data ibat bat = Raise e.
Proof. intros Hraw He. unfold battery_pack. rewrite Hraw. simpl. by rewrite He. Qed.

Lemma get_sensors_battery_undecodable inv sensors s x d bat raw e :
  Py.getitem inv "JTS1_BP_STA_REPORT" = Ok (JObj d) →
  12 < String.length bat →
  Py.assoc bat d = Some raw →
  json_loads raw = Raise e →
  raises (__get_sensors_battery json_loads inv sensors s x).
Proof.
  intros Hd Hlen Hraw He. unfold __get_sensors_battery. rewrite Hd. simpl.
  apply bind_raises.
  assert (bat ∈ filter (λ s, 12 < String.length s) d.*1) as Hbat.
  { apply list_elem_of_filter. split; [done|]. apply assoc_is_Some. eauto. }
  apply list_elem_of_lookup in Hbat as (ibat & Hbat).
  apply (for_each_raises _ _ (ibat, bat)).
  - by apply elem_of_enumerate.
  - intros data. exists e. apply (battery_pack_undecodable _ _ _ _ _ _ raw).
    + simpl. by rewrite Hraw.
    + done.
Qed.

Lemma Root_inverter_state data serial suffix sensors self :
  (Root.inverter json_loads data serial suffix sensors self).2 = self.
Proof.
  unfold Root.inverter, mthen, read, read_attr, lift. simpl.
  repeat (case_match; simpl; simplify_eq/=; try done).
Qed.

Lemma Root_inverter_raises data serial suffix sensors self inv :
  data self = Some inv →
  extractor_raises json_loads inv →
  raises (Root.inverter json_loads data serial suffix sensors self).1.
Proof.
  intros Hdata Hbad.
  unfold Root.inverter, mthen, read, read_attr, lift. simpl.
  rewrite Hdata. simpl.
  destruct (serial self) as [s|]; simpl; [|by eexists].
  destruct (Root.__get_sensors_ems_change inv sensors s suffix)
    as [sensors1|e1] eqn:H1; simpl; [|by eexists].
  destruct (__get_sensors_battery json_loads inv sensors1 s suffix)
    as [sensors2|e2] eqn:H2; simpl; [|by eexists].
  destruct (__get_sensors_ems_heartbeat self inv sensors2 s suffix)
    as [sensors3|e3] eqn:H3; simpl; [|by eexists].
  destruct Hbad as [Hbad|[Hbad|Hbad]].
  - destruct (Hbad sensors s suffix) as [e He]. congruence.
  - destruct (Hbad sensors1 s suffix) as [e He]. congruence.
  - destruct (Hbad self sensors2 s suffix) as [e He]. congruence.
Qed.

(** In a dual installation a report root on which an extractor raises
    makes [_get_sensors] raise: nothing between the extractor and the
    caller of [_get_sensors] catches the exception. *)
Lemma Root_get_sensors_raises response self self1 inv :
  Root._get_serial_numbers response self = (Ok 2, self1) →
  master_data self1 = Some inv ∨ slave_data self1 = Some inv →
  extractor_raises json_loads inv →
  raises (Root._get_sensors json_loads response self).1.
Proof.
  intros Hres Hinv Hbad. unfold Root._get_sensors.
  unfold mthen at 1. rewrite Hres. simpl.
  apply mthen_raises_later. intros self2 s2 Hs2.
  unfold read in Hs2. injection Hs2 as <- <-.
  apply mthen_raises_later. intros sensors0 s3 Hs3.
  unfold lift in Hs3. injection Hs3 as _ <-.
  destruct Hinv as [Hinv|Hinv].
  - apply mthen_raises. by eapply Root_inverter_raises.
  - apply mthen_raises_later. intros sensors1 s4 Hs4.
    assert (s4 = self1) as ->.
    { by rewrite <- (Root_inverter_state master_data master_sn "_master"
                       sensors0 self1), Hs4. }
    apply mthen_raises. by eapply Root_inverter_raises.
Qed.

End Abort.

(** C4, as the code has it. In a dual installation, when one of the three
    report sub-trees is absent from an inverter's report root, the
    extractor of that report raises the lookup failure, nothing catches
    it, and [_get_sensors] raises: no sensor map is returned. *)
Theorem C4_missing_report_aborts json_loads response self self1 inv report :
  Root._get_serial_numbers response self = (Ok 2, self1) →
  master_data self1 = Some inv ∨ slave_data self1 = Some inv →
  report = "JTS1_EMS_CHANGE_REPORT" ∨ report = "JTS1_BP_STA_REPORT"
    ∨ report = "JTS1_EMS_HEARTBEAT" →
  Py.getitem inv report = Raise (KeyError report) →
  raises (Root._get_sensors json_loads response self).1.
Proof.
  intros Hres Hinv Hreport Hmiss.
  eapply Root_get_sensors_raises; [exact Hres|exact Hinv|].
  destruct Hreport as [->|[->| ->]].
  - left. intros sensors s x. eexists. by apply ems_change_missing.
  - right; left. intros sensors s x. eexists.
    by apply get_sensors_battery_missing.
  - right; right. intros self0 sensors s x. eexists.
    by apply get_sensors_ems_heartbeat_missing.
Qed.

(** C5, as the code has it. When the text of one battery pack does not
    decode, the decoder's exception leaves the battery-pack extractor, which
    then emits no record for any pack, and in a dual installation
    [_get_sensors] raises as well. *)
Theorem C5_undecodable_pack_aborts json_loads response self self1 inv d bat
    text e :
  Root._get_serial_numbers response self = (Ok 2, self1) →
  master_data self1 = Some inv ∨ slave_data self1 = Some inv →
  Py.getitem inv "JTS1_BP_STA_REPORT" = Ok (JObj d) →
  12 < String.length bat →
  Py.assoc bat d = Some (JStr text) →
  json_loads (JStr text) = Raise e →
  (∀ sensors s x, raises (__get_sensors_battery json_loads inv sensors s x))
  ∧ raises (Root._get_sensors json_loads response self).1.
Proof.
  intros Hres Hinv Hd Hlen Hraw He.
  assert (∀ sensors s x,
            raises (__get_sensors_battery json_loads inv sensors s x)) as Hbad.
  { intros sensors s x. by eapply get_sensors_battery_undecodable. }
  split; [exact Hbad|].
  eapply Root_get_sensors_raises; [exact Hres|exact Hinv|].
  right; left. exact Hbad.
Qed.

(** ** The serial of a record *)

(** Every record that the loop over the PV strings writes carries the
    serial the instance is configured with, whichever inverter the string
    belongs to. *)
Lemma heartbeat_string_serial self d inverter_sn inverter_string st pv_string st' :
  heartbeat_string self d inverter_sn inverter_string st pv_string = Ok st' →
  ∀ id r, st'.1.1 !! id = Some r →
    st.1.1 !! id = Some r ∨ EndPoint.serial r = sn self.
Proof.
  unfold heartbeat_string. destruct pv_string as [i mpptpv]. intros H. run H.
  eapply (for_each_inv
            (λ st', ∀ id r, st'.1.1 !! id = Some r →
                      st.1.1 !! id = Some r ∨ EndPoint.serial r = sn self));
    [by left| |exact H].
  intros [[data key] total] [k v] st2 _ IH Hstep.
  unfold heartbeat_field in Hstep. run Hstep. simplify_eq.
  simpl in *. intros id r Hr.
  apply lookup_insert_Some in Hr as [[_ <-]|[_ Hr]]; [by right|by apply IH].
Qed.

(** C9. A dual installation whose instance is configured with the master's
    serial: the record of the slave inverter's first PV string is named
    after the slave and carries the master's serial, while the slave's
    other heartbeat records carry the slave's. *)
Theorem C9_slave_string_record_serial :
  (EndPoint.serial <$>
     returned
       (Root._get_sensors Sample.json_loads
          (Sample.dual Sample.good Sample.good) (init Sample.master)).1
       "J32EZEH4ZG3S0042_JTS1_EMS_HEARTBEAT_mpptHeartBeat_mpptPv1_pwr")
    = Some "J32EZEH4ZG3S0104"
  ∧ (EndPoint.name <$>
       returned
         (Root._get_sensors Sample.json_loads
            (Sample.dual Sample.good Sample.good) (init Sample.master)).1
         "J32EZEH4ZG3S0042_JTS1_EMS_HEARTBEAT_mpptHeartBeat_mpptPv1_pwr")
    = Some "J32EZEH4ZG3S0042_mpptPv1_pwr"
  ∧ (EndPoint.serial <$>
       returned
         (Root._get_sensors Sample.json_loads
            (Sample.dual Sample.good Sample.good) (init Sample.master)).1
         "J32EZEH4ZG3S0042_JTS1_EMS_HEARTBEAT_pcsActPwr")
    = Some "J32EZEH4ZG3S0042".
Proof. by vm_compute. Qed.

(** ** The battery-pack extractor *)

Lemma string_app_inv_tail a b s : a +:+ s = b +:+ s → a = b.
Proof.
  intros H. apply (f_equal list_ascii_of_string) in H.
  rewrite !chars_app in H. apply app_inv_tail in H. by apply chars_inj.
Qed.

(** Compare two strings that end in known characters from the right. *)
Ltac from_the_right H :=
  apply (f_equal list_ascii_of_string) in H;
  rewrite !chars_app in H; simpl in H;
  apply (f_equal (@List.rev ascii)) in H;
  rewrite !rev_app_distr in H; simpl in H.

(** No allow-listed field of a pack shares its identifier with the derived
    temperature record of any pack. *)
Lemma bpTemp_id_fresh a b key :
  key ∈ bat_sens_select → a +:+ "_" +:+ key ≠ b +:+ "_" +:+ "bpTemp".
Proof.
  unfold bat_sens_select. intros Hkey H.
  repeat (apply elem_of_cons in Hkey as [->|Hkey];
          [from_the_right H; discriminate H|]).
  by inversion Hkey.
Qed.

(** Adding the elements of an array of numbers is adding the numbers. *)
Lemma sum_numeric ns : ∀ acc,
  for_each Py.add acc (JNum <$> ns) = for_each Py.plus acc ns.
Proof.
  induction ns as [|n ns IH]; intros acc; simpl; [done|].
  change (Py.add acc (JNum n)) with (Py.plus acc n).
  destruct (Py.plus acc n) as [acc'|e]; simpl; [apply IH|done].
Qed.

(** [sum(temp) / len(temp)] of an array of numbers. *)
Lemma mean_numeric ns : mean (JArr (JNum <$> ns)) = mean_of ns.
Proof.
  unfold mean, mean_of, sum_of. simpl. rewrite sum_numeric.
  by rewrite length_fmap.
Qed.

(** Integers are added exactly, whatever their size; the one rounding of
    their mean is that of the division. *)
Lemma sum_of_integers zs : ∀ acc : Z,
  for_each Py.plus (Int acc) (Int <$> zs) = Ok (Int (acc + foldr Z.add 0%Z zs)).
Proof.
  induction zs as [|z zs IH]; intros acc; simpl.
  - by rewrite Z.add_0_r.
  - rewrite IH. do 2 f_equal. lia.
Qed.

Lemma mean_of_integers zs :
  mean_of (Int <$> zs) = Py.div (Int (foldr Z.add 0%Z zs)) (length zs).
Proof.
  unfold mean_of, sum_of. rewrite sum_of_integers. simpl.
  by rewrite length_fmap.
Qed.

Section Battery.

Variable json_loads : json → py json.
Variables (inverter_sn inverter_string : string).
Variables (d : list (string * json)) (bat : string) (raw : json).
Variables (payload : list (string * json)) (temps : list num) (q : float).

Hypothesis Hraw : Py.assoc bat d = Some raw.
Hypothesis Hloads : json_loads raw = Ok (JObj payload).
Hypothesis Htemp : Py.assoc "bpTemp" payload = Some (JArr (JNum <$> temps)).
Hypothesis Hmean : mean_of temps = Ok q.

Let uid : string :=
  inverter_sn +:+ "_" +:+ "JTS1_BP_STA_REPORT" +:+ "_" +:+ bat +:+ "_"
    +:+ "bpTemp".

Let good (data : sensors_t) : Prop :=
  numeric_record uid inverter_sn (Some degC) q (data !! uid).

(** The iteration for [bat] returns and leaves the derived record. *)
Lemma battery_pack_mean data ibat :
  ∃ data',
    battery_pack json_loads (JObj d) inverter_sn inverter_string data ibat bat
      = Ok data'
    ∧ good data'.
Proof.
  unfold battery_pack. simpl. rewrite Hraw. simpl. rewrite Hloads. simpl.
  rewrite Htemp. simpl. rewrite mean_numeric, Hmean. simpl.
  eexists. split; [done|].
  unfold good, numeric_record. rewrite lookup_insert_eq.
  eexists. done.
Qed.

(** The iteration for any pack keeps it. *)
Lemma battery_pack_keeps data ibat bat' data' :
  good data →
  battery_pack json_loads (JObj d) inverter_sn inverter_string data ibat bat'
    = Ok data' →
  good data'.
Proof.
  intros Hgood Hrun. destruct (decide (bat' = bat)) as [->|Hne].
  { destruct (battery_pack_mean data ibat) as (data'' & Hrun' & Hgood').
    congruence. }
  unfold battery_pack in Hrun. run Hrun. simplify_eq.
  unfold good in *. rewrite lookup_insert_ne.
  - match goal with
    | |- numeric_record _ _ _ _ (foldl ?f data ?l !! _) =>
        replace (foldl f data l !! uid) with (data !! uid); [done|]
    end.
    symmetry. apply (foldl_inv (λ m : sensors_t, m !! uid = data !! uid));
      [done|].
    intros m [k v] _ Hm. case_bool_decide as Hsel; [|done].
    rewrite lookup_insert_ne; [done|].
    unfold uid. intros Hid. do 4 apply (inj (String.app _)) in Hid.
    by apply bpTemp_id_fresh in Hid.
  - unfold uid. intros Hid. do 4 apply (inj (String.app _)) in Hid.
    apply (string_app_inv_tail _ _ ("_" +:+ "bpTemp")) in Hid. done.
Qed.

Lemma get_sensors_battery_mean inverter_data sensors out :
  Py.getitem inverter_data "JTS1_BP_STA_REPORT" = Ok (JObj d) →
  12 < String.length bat →
  __get_sensors_battery json_loads inverter_data sensors inverter_sn
    inverter_string = Ok out →
  good out.
Proof.
  intros Hd Hlen Hrun. unfold __get_sensors_battery in Hrun.
  rewrite Hd in Hrun. simpl in Hrun.
  apply bind_Ok in Hrun as (data & Hloop & [= <-]).
  assert (good data) as (r & Hr & ?).
  { assert (bat ∈ filter (λ s, 12 < String.length s) d.*1) as Hbat.
    { apply list_elem_of_filter. split; [done|]. apply assoc_is_Some. eauto. }
    apply list_elem_of_lookup in Hbat as (ibat & Hbat).
    eapply (for_each_establish good _ _ (ibat, bat)); [| | |exact Hloop].
    - by apply elem_of_enumerate.
    - intros m m' Hm. destruct (battery_pack_mean m ibat) as (m'' & ? & ?).
      congruence.
    - intros m [i b] m' _. apply battery_pack_keeps. }
  exists r. split; [|done]. by apply lookup_union_Some_l.
Qed.

End Battery.

(** The extractor returns when the mean of every recognised pack can be
    computed. *)
Lemma get_sensors_battery_returns json_loads inverter_data sensors inverter_sn
    inverter_string d :
  Py.getitem inverter_data "JTS1_BP_STA_REPORT" = Ok (JObj d) →
  (∀ bat, bat ∈ d.*1 → 12 < String.length bat →
     ∃ temps q, pack_with_temperatures json_loads d bat temps
                ∧ mean_of temps = Ok q) →
  ∃ out,
    __get_sensors_battery json_loads inverter_data sensors inverter_sn
      inverter_string = Ok out.
Proof.
  intros Hd Hpacks. unfold __get_sensors_battery. rewrite Hd.
  cbn [mbind py_bind Py.keys].
  match goal with
  | |- context [for_each ?body ?acc0 ?l] =>
      destruct (for_each_total (λ _ : sensors_t, True) body l) with (acc := acc0)
        as (data & -> & _); [|done|by eexists]
  end.
  intros data [ibat bat] Hin _. apply elem_of_enumerate in Hin.
  apply list_elem_of_lookup_2, list_elem_of_filter in Hin as [Hlen Hin].
  destruct (Hpacks bat Hin Hlen)
    as (temps & q & (raw & payload & Hraw & Hloads & Htemp & _) & Hmean).
  destruct (battery_pack_mean json_loads inverter_sn inverter_string d bat raw
              payload temps q Hraw Hloads Htemp Hmean data ibat)
    as (data' & Hrun & _).
  by exists data'.
Qed.

(** A recognised pack that decodes to an object without [bpTemp] makes the
    extractor raise, whatever its sibling packs hold. *)
Lemma get_sensors_battery_without_temperatures json_loads inverter_data sensors
    inverter_sn inverter_string d bat :
  Py.getitem inverter_data "JTS1_BP_STA_REPORT" = Ok (JObj d) →
  12 < String.length bat →
  pack_without_temperatures json_loads d bat →
  raises (__get_sensors_battery json_loads inverter_data sensors inverter_sn
            inverter_string).
Proof.
  intros Hd Hlen (raw & payload & Hraw & Hloads & Htemp).
  unfold __get_sensors_battery. rewrite Hd. simpl. apply bind_raises.
  assert (bat ∈ filter (λ s, 12 < String.length s) d.*1) as Hbat.
  { apply list_elem_of_filter. split; [done|]. apply assoc_is_Some. eauto. }
  apply list_elem_of_lookup in Hbat as (ibat & Hbat).
  apply (for_each_raises _ _ (ibat, bat)); [by apply elem_of_enumerate|].
  intros data. exists (KeyError "bpTemp").
  unfold battery_pack. simpl. rewrite Hraw. simpl. rewrite Hloads. simpl.
  by rewrite Htemp.
Qed.


(** ** The heartbeat extractor *)

Lemma lookups_all (ns : list num) :
  (λ i, default (Int 0) (ns !! i)) <$> seq 0 (length ns) = ns.
Proof.
  induction ns as [|n ns IH]; simpl; [done|]. f_equal.
  rewrite <- fmap_S_seq, <- list_fmap_compose. exact IH.
Qed.

Lemma float_sum_from_cons acc n ns :
  float_sum_from acc (n :: ns)
  = x ← Py.as_float n; float_sum_from (acc + x)%float ns.
Proof.
  unfold float_sum_from. simpl. by destruct (Py.as_float n).
Qed.

Section Strings.

Variable self : Ecoflow.
Variables (inverter_sn inverter_string : string).

Let field := heartbeat_field self inverter_sn inverter_string.

(** Fields other than [pwr] leave the running total alone. *)
Lemma fields_without_pwr mpptpv kvs : ∀ st,
  "pwr" ∉ kvs.*1 →
  ∃ st', for_each (field mpptpv) st kvs = Ok st'
         ∧ st'.2 = st.2
         ∧ (is_Some st.1.2 → is_Some st'.1.2).
Proof.
  induction kvs as [|[k v] kvs IH]; intros st Hno; simpl in *;
    [by exists st|].
  apply not_elem_of_cons in Hno as [Hk Hno].
  destruct st as [[data key] total]. simpl.
  destruct (String.eqb_spec k "pwr") as [->|_]; [done|]. simpl.
  edestruct IH as (st' & -> & Htotal & Hkey); [done|].
  exists st'. split; [done|]. split; [done|]. intros _. apply Hkey. by eexists.
Qed.

(** The one [pwr] field of a string is added to the running total. *)
Lemma fields_with_pwr mpptpv kvs q x : ∀ data key acc,
  NoDup kvs.*1 →
  Py.assoc "pwr" kvs = Some (JNum q) →
  Py.as_float q = Ok x →
  ∃ st', for_each (field mpptpv) (data, key, Float acc) kvs = Ok st'
         ∧ st'.2 = Float (acc + x)
         ∧ is_Some st'.1.2.
Proof.
  induction kvs as [|[k v] kvs IH]; intros data key acc Hnd Hpwr Hx;
    simpl in *; [done|].
  apply NoDup_cons in Hnd as [Hk Hnd].
  destruct (String.eqb_spec "pwr" k) as [<-|Hne].
  - injection Hpwr as ->. rewrite String.eqb_refl.
    unfold Py.add, Py.plus. simpl. rewrite Hx. simpl.
    edestruct (fields_without_pwr mpptpv kvs) as (st' & -> & Htotal & Hkey);
      [done|].
    exists st'. split; [done|]. split; [done|]. apply Hkey. by eexists.
  - destruct (String.eqb_spec k "pwr") as [?|_]; [congruence|]. simpl.
    by apply IH.
Qed.

End Strings.

Section Heartbeat.

Variable self : Ecoflow.
Variables (inverter_sn inverter_string : string).
Variables (d : list (string * json)) (strings : list json) (pwr : list num).

Hypothesis Hpv : mpptPv (JObj d) = Ok (JArr strings).
Hypothesis Hstrings : Forall2 pv_string_with_pwr strings pwr.

Let step := heartbeat_string self (JObj d) inverter_sn inverter_string.

(** The loop over the strings adds the [pwr] of each string it visits to
    the running total, in the order of the visit. *)
Lemma heartbeat_strings_run l : ∀ data key acc total,
  (∀ i mpptpv, (i, mpptpv) ∈ l → i < length strings) →
  is_Some key →
  float_sum_from acc ((λ i, default (Int 0) (pwr !! i)) <$> l.*1) = Ok total →
  ∃ st', for_each step (data, key, Float acc) l = Ok st'
         ∧ st'.2 = Float total
         ∧ is_Some st'.1.2.
Proof.
  induction l as [|[i mpptpv] l IH]; intros data key acc total Hl Hkey Hsum.
  - injection Hsum as <-. by eexists.
  - destruct (lookup_lt_is_Some_2 strings i) as [s Hs];
      [eapply Hl; left|].
    destruct (Forall2_lookup_l _ _ _ _ _ Hstrings Hs)
      as (q & Hq & kvs & -> & Hnd & Hpwr).
    rewrite fmap_cons, fmap_cons, float_sum_from_cons in Hsum.
    cbn [fst] in Hsum. rewrite Hq in Hsum. cbn [default] in Hsum.
    apply bind_Ok in Hsum as (x & Hx & Hsum).
    assert (∃ st1, step (data, key, Float acc) (i, mpptpv) = Ok st1
                   ∧ st1.2 = Float (acc + x) ∧ is_Some st1.1.2)
      as ([[data1 key1] total1] & Hstep & Htotal1 & Hkey1).
    { unfold step, heartbeat_string.
      rewrite Hpv. cbn [mbind py_bind Py.getindex]. rewrite Hs.
      cbn [mbind py_bind Py.items].
      by apply (fields_with_pwr _ _ _ _ _ q). }
    cbn [for_each]. rewrite Hstep. cbn [mbind py_bind].
    simpl in Htotal1, Hkey1. subst total1.
    apply IH; [|done|done]. intros j name Hin. eapply Hl. by right.
Qed.

Let id : string :=
  inverter_sn +:+ "_" +:+ "JTS1_EMS_HEARTBEAT" +:+ "_mpptHeartBeat_"
    +:+ "mpptPv_pwrTotal".

(** The indices that the loop over the strings visits. *)
Lemma enumerate_indices :
  (enumerate ((λ i, "mpptPv" +:+ Str.of_nat i) <$> seq 1 (length strings))).*1
  = seq 0 (length pwr).
Proof.
  unfold enumerate. rewrite fst_zip.
  - by rewrite length_fmap, length_seq, (Forall2_length _ _ _ Hstrings).
  - by rewrite length_seq.
Qed.

(** With the three phase objects in place and a total that can be
    computed, the extractor returns and the total is in the map. *)
Lemma get_sensors_ems_heartbeat_total_power inverter_data sensors total :
  Py.getitem inverter_data "JTS1_EMS_HEARTBEAT" = Ok (JObj d) →
  (∀ phase, phase ∈ ["pcsAPhase"; "pcsBPhase"; "pcsCPhase"] →
     ∃ fields, Py.assoc phase d = Some (JObj fields)) →
  float_sum pwr = Ok total →
  ∃ out,
    __get_sensors_ems_heartbeat self inverter_data sensors inverter_sn
      inverter_string = Ok out
    ∧ ∃ unit, numeric_record id inverter_sn unit total (out !! id).
Proof.
  intros Hd Hphases Hsum. unfold __get_sensors_ems_heartbeat.
  rewrite Hd. cbn [mbind py_bind Py.items].
  match goal with
  | |- context [for_each ?body ?st0 ["pcsAPhase"; "pcsBPhase"; "pcsCPhase"]] =>
      destruct (for_each_total (λ s : sensors_t * option string, is_Some s.2)
                  body ["pcsAPhase"; "pcsBPhase"; "pcsCPhase"])
        with (acc := st0) as ([data1 key1] & -> & Hkey1)
  end.
  - intros [m k] phase Hphase Hk.
    destruct (Hphases phase Hphase) as (fields & Hfields).
    cbv beta.
    assert (Py.getitem (JObj d) phase = Ok (JObj fields)) as ->
      by (apply getitem_Ok; eauto).
    cbn [mbind py_bind Py.items].
    eexists. split; [done|].
    apply (foldl_inv (λ st : sensors_t * option string, is_Some st.2)); [done|].
    by intros [m' k'] [key value] _ _.
  - destruct (Hphases "pcsAPhase") as (fields & Hphase); [set_solver|].
    apply (foldl_establish (λ st : sensors_t * option string, is_Some st.2)
             _ _ ("pcsAPhase", JObj fields)).
    + by apply assoc_Some_elem.
    + by intros [m k].
    + by intros [m k] [key value] _ _.
  - cbn [mbind py_bind]. rewrite Hpv. cbn [mbind py_bind Py.len].
    destruct (heartbeat_strings_run
                (enumerate ((λ i, "mpptPv" +:+ Str.of_nat i)
                              <$> seq 1 (length strings)))
                data1 key1 PrimFloat.zero total)
      as ([[data key] total'] & Hloop & Htotal & [k Hk]).
    + intros i mpptpv Hin. apply elem_of_enumerate in Hin.
      apply lookup_lt_Some in Hin. by rewrite length_fmap, length_seq in Hin.
    + exact Hkey1.
    + by rewrite enumerate_indices, lookups_all.
    + unfold step in Hloop. rewrite Hloop. simpl in *. subst key total'.
      simpl. eexists. split; [done|].
      exists (__get_unit k). unfold numeric_record. eexists.
      split; [apply lookup_union_Some_l, lookup_insert_eq|done].
Qed.

End Heartbeat.

(** A heartbeat without one of the three phase objects makes the extractor
    raise, whatever its PV strings hold. *)
Lemma get_sensors_ems_heartbeat_without_phase self inverter_data sensors
    inverter_sn inverter_string d phase :
  Py.getitem inverter_data "JTS1_EMS_HEARTBEAT" = Ok (JObj d) →
  phase ∈ ["pcsAPhase"; "pcsBPhase"; "pcsCPhase"] →
  Py.assoc phase d = None →
  raises (__get_sensors_ems_heartbeat self inverter_data sensors inverter_sn
            inverter_string).
Proof.
  intros Hd Hphase Hmiss. unfold __get_sensors_ems_heartbeat.
  rewrite Hd. cbn [mbind py_bind Py.items].
  apply bind_raises. apply (for_each_raises _ _ phase); [done|].
  intros st. exists (KeyError phase). simpl. by rewrite Hmiss.
Qed.


(** ** The theorems on the sample documents *)

(** Literal keys that differ. *)
Ltac not_among H :=
  repeat (apply elem_of_cons in H as [H|H]; [discriminate H|]); by inversion H.

Ltac distinct_literals :=
  repeat (apply NoDup_cons_2; [let H := fresh in intros H; not_among H|]);
  apply NoDup_nil_2.

(** C4 as stated fails on a dual installation whose master lacks the
    battery report only: [_get_sensors] raises. *)
Lemma C4_counterexample :
  Py.getitem (Sample.without "JTS1_BP_STA_REPORT" Sample.good)
    "JTS1_EMS_CHANGE_REPORT" = Ok Sample.change_report
  ∧ Py.getitem (Sample.without "JTS1_BP_STA_REPORT" Sample.good)
      "JTS1_EMS_HEARTBEAT" = Ok (Sample.heartbeat [100; 150; 50]%Z)
  ∧ (Root._get_sensors Sample.json_loads
       (Sample.dual (Sample.without "JTS1_BP_STA_REPORT" Sample.good) Sample.good)
       (init Sample.master)).1 = Raise (KeyError "JTS1_BP_STA_REPORT").
Proof. by vm_compute. Qed.

Lemma C4_witness :
  Py.getitem (Sample.without "JTS1_EMS_HEARTBEAT" Sample.good)
    "JTS1_EMS_HEARTBEAT" = Raise (KeyError "JTS1_EMS_HEARTBEAT")
  ∧ raises
      (Root._get_sensors Sample.json_loads
         (Sample.dual Sample.good (Sample.without "JTS1_EMS_HEARTBEAT" Sample.good))
         (init Sample.master)).1.
Proof.
  split; [reflexivity|].
  apply (C4_missing_report_aborts Sample.json_loads _ _
           (Root._get_serial_numbers
              (Sample.dual Sample.good
                 (Sample.without "JTS1_EMS_HEARTBEAT" Sample.good))
              (init Sample.master)).2
           (Sample.without "JTS1_EMS_HEARTBEAT" Sample.good)
           "JTS1_EMS_HEARTBEAT").
  - vm_compute. reflexivity.
  - right. vm_compute. reflexivity.
  - right. right. reflexivity.
  - reflexivity.
Defined.

(** C5 as stated fails on a battery report with one pack that decodes and
    one that does not: the extractor raises, and so does [_get_sensors]. *)
Lemma C5_counterexample :
  Sample.json_loads (JStr Sample.pack_text) = Ok Sample.pack
  ∧ Sample.json_loads (JStr Sample.broken_text) = Raise JSONDecodeError
  ∧ __get_sensors_battery Sample.json_loads
      (Sample.root
         (Sample.one_pack ++ [("HJ32ZDH4ZF7E0002", JStr Sample.broken_text)])
         [100; 150; 50]%Z)
      ∅ Sample.master "_master" = Raise JSONDecodeError
  ∧ (Root._get_sensors Sample.json_loads
       (Sample.dual
          (Sample.root
             (Sample.one_pack ++ [("HJ32ZDH4ZF7E0002", JStr Sample.broken_text)])
             [100; 150; 50]%Z)
          Sample.good)
       (init Sample.master)).1 = Raise JSONDecodeError.
Proof. by vm_compute. Qed.

Lemma C5_witness :
  Sample.json_loads (JStr Sample.broken_text) = Raise JSONDecodeError
  ∧ raises
      (Root._get_sensors Sample.json_loads
         (Sample.dual
            (Sample.root
               (Sample.one_pack ++ [("HJ32ZDH4ZF7E0002", JStr Sample.broken_text)])
               [100; 150; 50]%Z)
            Sample.good)
         (init Sample.master)).1.
Proof.
  split; [reflexivity|].
  refine (proj2 (C5_undecodable_pack_aborts Sample.json_loads _ _
                   (Root._get_serial_numbers
                      (Sample.dual
                         (Sample.root
                            (Sample.one_pack
                               ++ [("HJ32ZDH4ZF7E0002", JStr Sample.broken_text)])
                            [100; 150; 50]%Z)
                         Sample.good)
                      (init Sample.master)).2
                   (Sample.root
                      (Sample.one_pack
                         ++ [("HJ32ZDH4ZF7E0002", JStr Sample.broken_text)])
                      [100; 150; 50]%Z)
                   _ "HJ32ZDH4ZF7E0002" Sample.broken_text JSONDecodeError
                   _ _ _ _ _ _)).
  - vm_compute. reflexivity.
  - left. vm_compute. reflexivity.
  - reflexivity.
  - vm_compute. lia.
  - reflexivity.
  - reflexivity.
Defined.





Lemma C10_witness :
  ∃ sensors,
    (Root._get_sensors Sample.json_loads (Sample.dual Sample.good Sample.good)
       (init Sample.master)).1 = Ok (Some sensors)
    ∧ ∀ key r, sensors !! key = Some r → EndPoint.internal_unique_id r = key.
Proof.
  assert (returns_map
            (Root._get_sensors Sample.json_loads
               (Sample.dual Sample.good Sample.good) (init Sample.master)).1
          = true) as Hok
    by (vm_compute; reflexivity).
  destruct (Root._get_sensors Sample.json_loads
              (Sample.dual Sample.good Sample.good) (init Sample.master))
    as [[[sensors|]|e] self'] eqn:E; [|discriminate Hok..].
  exists sensors. split; [reflexivity|].
  exact (C10_key_is_internal_unique_id _ _ _ _ _ E).
Defined.
